(** * jupyterlab/labextensions.py : the [jupyter labextension] entry points

    A shallow embedding of the subcommand classes of
    [jupyterlab/labextensions.py] and the properties of their [start]
    methods: which collaborator calls are made, in which order, and which
    exception leaves the method.

    The functions imported from [.commands], [os.getcwd] and
    [JupyterApp.start] are not part of the file; they are taken as
    parameters (record [Commands]) acting on an abstract world. *)

From Stdlib Require Import List String Bool ZArith Lia Sorted Permutation.
Import ListNotations.
Local Open Scope string_scope.
Local Open Scope list_scope.

Set Implicit Arguments.

(** ** Python exceptions and results *)

(** The argument of [sys.exit]: nothing, an integer status, or any other
    object (here a string), which the interpreter prints on stderr before
    leaving with status 1. *)
Inductive exit_arg : Type :=
| ExitNone
| ExitCode (n : Z)
| ExitObj (msg : string).

(** Exceptions, split the way [except Exception] splits them: instances of
    [Exception] (any subclass, with its class name and message) and the
    [BaseException]s outside it. *)
Inductive exn : Type :=
| Exception (cls msg : string)
| SystemExit (arg : exit_arg)
| KeyboardInterrupt.

Definition isinstance_Exception (e : exn) : bool :=
  match e with
  | Exception _ _ => true
  | SystemExit _ | KeyboardInterrupt => false
  end.

Inductive result (A : Type) : Type :=
| Ok (a : A)
| Raise (e : exn).
Arguments Ok {A} a.
Arguments Raise {A} e.

(** What the interpreter does with a [SystemExit] nobody caught. *)
Definition exit_status (a : exit_arg) : Z :=
  match a with
  | ExitNone => 0
  | ExitCode n => n
  | ExitObj _ => 1
  end.

Definition exit_stderr (a : exit_arg) : option string :=
  match a with
  | ExitObj msg => Some msg
  | _ => None
  end.

(** ** Calls to the collaborators, as they appear in a run *)

Inductive call : Type :=
| Call_install_extension (arg app_dir : string)
| Call_uninstall_extension (arg app_dir : string)
| Call_list_extensions (app_dir : string)
| Call_enable_extension (arg app_dir : string)
| Call_disable_extension (arg app_dir : string)
| Call_link_package (arg app_dir : string)
| Call_unlink_package (arg app_dir : string)
| Call_build (app_dir : string) (clean_staging : bool).

Inductive outcome : Type :=
| Returned                      (* the value is not looked at *)
| ReturnedBool (changed : bool) (* the value is tested by [any] *)
| Raised (e : exn).

Record event : Type := Ev { ev_call : call; ev_outcome : outcome }.

Definition calls (tr : list event) : list call := map ev_call tr.

Definition is_build (c : call) : bool :=
  match c with Call_build _ _ => true | _ => false end.

Definition call_eq_dec (c d : call) : {c = d} + {c <> d}.
Proof. decide equality; first [apply string_dec | apply bool_dec]. Defined.

(** How often the call [k] was made in a run. *)
Definition times_called (k : call) (tr : list event) : nat :=
  count_occ call_eq_dec (calls tr) k.

(** ** The monad of a [start] method

    A computation reads and changes the world, may raise, and leaves the
    list of collaborator calls it made, oldest first. *)

Record run (W A : Type) : Type :=
  Run { res : result A; final : W; log : list event }.
Arguments Run {W A} res final log.

Definition M (W A : Type) : Type := W -> run W A.

Definition ret {W A} (a : A) : M W A := fun w => Run (Ok a) w [].

Definition raise {W A} (e : exn) : M W A := fun w => Run (Raise e) w [].

Definition bind {W A B} (m : M W A) (k : A -> M W B) : M W B :=
  fun w =>
    match m w with
    | Run (Ok a) w1 t1 =>
        match k a w1 with
        | Run r w2 t2 => Run r w2 (t1 ++ t2)
        end
    | Run (Raise e) w1 t1 => Run (Raise e) w1 t1
    end.

Notation "x <- m ;; k" := (bind m (fun x => k))
  (at level 61, m at next level, right associativity).
Notation "m ;;; k" := (bind m (fun _ => k))
  (at level 61, right associativity).

(** [try: body except Exception as e: handler e]. *)
Definition try_except_Exception {W A} (body : M W A) (handler : exn -> M W A)
  : M W A :=
  fun w =>
    match body w with
    | Run (Ok a) w1 t1 => Run (Ok a) w1 t1
    | Run (Raise e) w1 t1 =>
        if isinstance_Exception e then
          match handler e w1 with
          | Run r w2 t2 => Run r w2 (t1 ++ t2)
          end
        else Run (Raise e) w1 t1
    end.

(** [[f(x) for x in xs]]: the calls are made in order and the
    comprehension stops at the first one that raises. *)
Fixpoint list_comp {W A B} (f : A -> M W B) (xs : list A) : M W (list B) :=
  match xs with
  | [] => ret []
  | x :: xs' => v <- f x ;; vs <- list_comp f xs' ;; ret (v :: vs)
  end.

(** [for x in xs: f(x)]. *)
Fixpoint for_in {W A B} (xs : list A) (f : A -> M W B) : M W unit :=
  match xs with
  | [] => ret tt
  | x :: xs' => f x ;;; for_in xs' f
  end.

(** The builtin [any] on a list of booleans that is already built. *)
Definition any (l : list bool) : bool := existsb (fun b => b) l.

(** [sys.exit(arg)]. *)
Definition sys_exit {W A} (arg : exit_arg) : M W A := raise (SystemExit arg).

(** ** Strings: [sorted] and [", ".join] *)

Fixpoint insert_sorted (x : string) (l : list string) : list string :=
  match l with
  | [] => [x]
  | y :: l' => if String.leb x y then x :: l else y :: insert_sorted x l'
  end.

Definition sorted (l : list string) : list string :=
  fold_right insert_sorted [] l.

Definition join (sep : string) (l : list string) : string :=
  String.concat sep l.

Definition contains (needle hay : string) : bool :=
  match String.index 0 needle hay with
  | Some _ => true
  | None => false
  end.

(** ** The collaborators

    [install_extension] ... [build] of [.commands], [os.getcwd] and the
    [start] of the parent class [JupyterApp].  Each takes the world and
    gives back a value or an exception; [unlink_package] and
    [uninstall_extension] report whether they changed anything. *)

Record Commands (W : Type) : Type := {
  cmd_install_extension : string -> string -> W -> result unit * W;
  cmd_uninstall_extension : string -> string -> W -> result bool * W;
  cmd_list_extensions : string -> W -> result unit * W;
  cmd_enable_extension : string -> string -> W -> result unit * W;
  cmd_disable_extension : string -> string -> W -> result unit * W;
  cmd_link_package : string -> string -> W -> result unit * W;
  cmd_unlink_package : string -> string -> W -> result bool * W;
  cmd_build : string -> bool -> W -> result unit * W;
  cmd_getcwd : W -> result string;
  cmd_JupyterApp_start : W -> result unit * W
}.

(** ** Configuration: the traits of [BaseExtensionApp] and its flags *)

Record BaseExtensionApp : Type := {
  extra_args : list string;
  app_dir : string;
  should_build : bool;
  should_clean : bool
}.

Inductive subapp : Type :=
| InstallLabExtensionApp
| UninstallLabExtensionApp
| ListLabExtensionsApp
| LinkLabExtensionApp
| UnlinkLabExtensionApp
| EnableLabExtensionsApp
| DisableLabExtensionsApp.

(** The class attribute [should_build = Bool(...)] of each class. *)
Definition default_should_build (c : subapp) : bool :=
  match c with
  | InstallLabExtensionApp | LinkLabExtensionApp
  | UnlinkLabExtensionApp | UninstallLabExtensionApp => true
  | ListLabExtensionsApp | EnableLabExtensionsApp
  | DisableLabExtensionsApp => false
  end.

(** A fresh instance: [app_dir = ''], [should_clean = False]. *)
Definition new_app (c : subapp) (args : list string) : BaseExtensionApp :=
  {| extra_args := args;
     app_dir := "";
     should_build := default_should_build c;
     should_clean := false |}.

(** The two flags the file adds to [base_flags]; each sets one trait. *)
Inductive trait_setting : Type :=
| Set_should_build (b : bool)
| Set_should_clean (b : bool).

Definition flags : list (string * (trait_setting * string)) :=
  [ ("no-build", (Set_should_build false,
                  "Defer building the app after the action."));
    ("clean", (Set_should_clean true,
               "Cleanup intermediate files after the action.")) ].

Definition apply_setting (t : trait_setting) (self : BaseExtensionApp)
  : BaseExtensionApp :=
  match t with
  | Set_should_build b =>
      {| extra_args := extra_args self; app_dir := app_dir self;
         should_build := b; should_clean := should_clean self |}
  | Set_should_clean b =>
      {| extra_args := extra_args self; app_dir := app_dir self;
         should_build := should_build self; should_clean := b |}
  end.

Fixpoint lookup {A} (k : string) (d : list (string * A)) : option A :=
  match d with
  | [] => None
  | (k', v) :: d' => if String.eqb k k' then Some v else lookup k d'
  end.

Definition apply_flag (name : string) (self : BaseExtensionApp)
  : BaseExtensionApp :=
  match lookup name flags with
  | Some (t, _) => apply_setting t self
  | None => self
  end.

(** [LabExtensionApp.subcommands]. *)
Definition subcommands : list (string * (subapp * string)) :=
  [ ("install", (InstallLabExtensionApp, "Install labextension(s)"));
    ("uninstall", (UninstallLabExtensionApp, "Uninstall labextension(s)"));
    ("list", (ListLabExtensionsApp, "List labextensions"));
    ("link", (LinkLabExtensionApp, "Link labextension(s)"));
    ("unlink", (UnlinkLabExtensionApp, "Unlink labextension(s)"));
    ("enable", (EnableLabExtensionsApp, "Enable labextension(s)"));
    ("disable", (DisableLabExtensionsApp, "Disable labextension(s)")) ].

Definition keys {A} (d : list (string * A)) : list string := map fst d.

(** ** The [start] methods *)

Section Start.

Variable W : Type.
Variable cmds : Commands W.

(** One call to a collaborator: the world moves on and the call is logged
    with what came back.  The keyword argument [logger=self.log] is the same
    object in every call and is left out. *)
Definition invoke {A} (c : call) (obs : A -> outcome)
    (f : W -> result A * W) : M W A :=
  fun w =>
    let (r, w') := f w in
    Run r w' [Ev c (match r with Ok a => obs a | Raise e => Raised e end)].

Definition install_extension (arg dir : string) : M W unit :=
  invoke (Call_install_extension arg dir) (fun _ => Returned)
         (cmd_install_extension cmds arg dir).

Definition uninstall_extension (arg dir : string) : M W bool :=
  invoke (Call_uninstall_extension arg dir) ReturnedBool
         (cmd_uninstall_extension cmds arg dir).

Definition list_extensions (dir : string) : M W unit :=
  invoke (Call_list_extensions dir) (fun _ => Returned)
         (cmd_list_extensions cmds dir).

Definition enable_extension (arg dir : string) : M W unit :=
  invoke (Call_enable_extension arg dir) (fun _ => Returned)
         (cmd_enable_extension cmds arg dir).

Definition disable_extension (arg dir : string) : M W unit :=
  invoke (Call_disable_extension arg dir) (fun _ => Returned)
         (cmd_disable_extension cmds arg dir).

Definition link_package (arg dir : string) : M W unit :=
  invoke (Call_link_package arg dir) (fun _ => Returned)
         (cmd_link_package cmds arg dir).

Definition unlink_package (arg dir : string) : M W bool :=
  invoke (Call_unlink_package arg dir) ReturnedBool
         (cmd_unlink_package cmds arg dir).

Definition build (dir : string) (clean_staging : bool) : M W unit :=
  invoke (Call_build dir clean_staging) (fun _ => Returned)
         (cmd_build cmds dir clean_staging).

(** [os.getcwd()] only reads the world. *)
Definition os_getcwd : M W string := fun w => Run (cmd_getcwd cmds w) w [].

(** [self.extra_args or [os.getcwd()]]: the right operand is evaluated only
    when the list is empty. *)
Definition or_cwd (args : list string) : M W (list string) :=
  match args with
  | [] => d <- os_getcwd ;; ret [d]
  | _ :: _ => ret args
  end.

Definition InstallLabExtensionApp_start (self : BaseExtensionApp) : M W unit :=
  args <- or_cwd (extra_args self) ;;
  list_comp (fun arg => install_extension arg (app_dir self)) args ;;;
  if should_build self then
    try_except_Exception
      (build (app_dir self) (should_clean self))
      (fun e =>
         for_in args (fun arg => uninstall_extension arg (app_dir self)) ;;;
         raise e)
  else ret tt.

Definition LinkLabExtensionApp_start (self : BaseExtensionApp) : M W unit :=
  args <- or_cwd (extra_args self) ;;
  list_comp (fun arg => link_package arg (app_dir self)) args ;;;
  if should_build self then
    try_except_Exception
      (build (app_dir self) (should_clean self))
      (fun e =>
         for_in args (fun arg => unlink_package arg (app_dir self)) ;;;
         raise e)
  else ret tt.

Definition UnlinkLabExtensionApp_start (self : BaseExtensionApp) : M W unit :=
  args <- or_cwd (extra_args self) ;;
  ans <- (vs <- list_comp (fun arg => unlink_package arg (app_dir self)) args ;;
          ret (any vs)) ;;
  if ans && should_build self then
    build (app_dir self) (should_clean self)
  else ret tt.

Definition UninstallLabExtensionApp_start (self : BaseExtensionApp)
  : M W unit :=
  args <- or_cwd (extra_args self) ;;
  ans <- (vs <- list_comp (fun arg => uninstall_extension arg (app_dir self))
                          args ;;
          ret (any vs)) ;;
  if ans && should_build self then
    build (app_dir self) (should_clean self)
  else ret tt.

Definition ListLabExtensionsApp_start (self : BaseExtensionApp) : M W unit :=
  list_extensions (app_dir self).

Definition EnableLabExtensionsApp_start (self : BaseExtensionApp) : M W unit :=
  list_comp (fun arg => enable_extension arg (app_dir self))
            (extra_args self) ;;;
  ret tt.

Definition DisableLabExtensionsApp_start (self : BaseExtensionApp)
  : M W unit :=
  list_comp (fun arg => disable_extension arg (app_dir self))
            (extra_args self) ;;;
  ret tt.

(** [super(LabExtensionApp, self).start()]: runs a subcommand and raises
    [NoStart] when one was given, returns when none was. *)
Definition JupyterApp_start : M W unit :=
  fun w => let (r, w') := cmd_JupyterApp_start cmds w in Run r w' [].

Definition LabExtensionApp_start : M W unit :=
  JupyterApp_start ;;;
  let subcmds := join ", " (sorted (keys subcommands)) in
  sys_exit (ExitObj ("Please supply at least one subcommand: " ++ subcmds)).

(** The method each class of [subcommands] runs. *)
Definition start (c : subapp) : BaseExtensionApp -> M W unit :=
  match c with
  | InstallLabExtensionApp => InstallLabExtensionApp_start
  | UninstallLabExtensionApp => UninstallLabExtensionApp_start
  | ListLabExtensionsApp => ListLabExtensionsApp_start
  | LinkLabExtensionApp => LinkLabExtensionApp_start
  | UnlinkLabExtensionApp => UnlinkLabExtensionApp_start
  | EnableLabExtensionsApp => EnableLabExtensionsApp_start
  | DisableLabExtensionsApp => DisableLabExtensionsApp_start
  end.

End Start.

(** ** Reading a run *)

Definition raised (o : outcome) : bool :=
  match o with Raised _ => true | _ => false end.

Definition build_called (tr : list event) : bool :=
  existsb is_build (calls tr).

(** Some call of the run came back with [changed = True]. *)
Definition some_changed (tr : list event) : bool :=
  existsb (fun ev => match ev_outcome ev with
                     | ReturnedBool true => true
                     | _ => false
                     end) tr.

(** Some call of the run other than [build] raised. *)
Definition per_identifier_raised (tr : list event) : bool :=
  existsb (fun ev => negb (is_build (ev_call ev)) && raised (ev_outcome ev)) tr.

(** [t] followed by the run [r]. *)
Definition after {W A} (t : list event) (r : run W A) : run W A :=
  Run (res r) (final r) (t ++ log r).

(** The events of calls [mk x] that returned the values [vs]. *)
Definition returned_events {A} (mk : string -> call) (obs : A -> outcome)
    (xs : list string) (vs : list A) : list event :=
  map (fun p => Ev (mk (fst p)) (obs (snd p))) (combine xs vs).

(** The shape of every run of a comprehension over collaborator calls:
    all of them returned, or the calls stop at the first that raised. *)
Inductive comp_shape {W A} (mk : string -> call) (obs : A -> outcome)
    (xs : list string) : run W (list A) -> Prop :=
| comp_all (vs : list A) (w : W) :
    List.length vs = List.length xs ->
    comp_shape mk obs xs (Run (Ok vs) w (returned_events mk obs xs vs))
| comp_stop (l1 : list string) (x : string) (l2 : list string)
    (vs : list A) (e : exn) (w : W) :
    xs = l1 ++ x :: l2 ->
    List.length vs = List.length l1 ->
    comp_shape mk obs xs
      (Run (Raise e) w
           (returned_events mk obs l1 vs ++ [Ev (mk x) (Raised e)])).

(** ** Which calls a class makes per identifier, and which undo them *)

Definition forward_call (c : subapp) (arg dir : string) : call :=
  match c with
  | InstallLabExtensionApp => Call_install_extension arg dir
  | UninstallLabExtensionApp => Call_uninstall_extension arg dir
  | ListLabExtensionsApp => Call_list_extensions dir
  | LinkLabExtensionApp => Call_link_package arg dir
  | UnlinkLabExtensionApp => Call_unlink_package arg dir
  | EnableLabExtensionsApp => Call_enable_extension arg dir
  | DisableLabExtensionsApp => Call_disable_extension arg dir
  end.

Definition rollback_call (c : subapp) (arg dir : string) : call :=
  match c with
  | InstallLabExtensionApp => Call_uninstall_extension arg dir
  | LinkLabExtensionApp => Call_unlink_package arg dir
  | _ => forward_call c arg dir
  end.

Section Steps.

Variable W : Type.
Variable cmds : Commands W.

(** The per-identifier calls of class [c] on [ids], one after the other. *)
Definition forward_calls (c : subapp) (dir : string) (ids : list string)
  : M W unit :=
  match c with
  | InstallLabExtensionApp =>
      for_in ids (fun arg => install_extension cmds arg dir)
  | UninstallLabExtensionApp =>
      for_in ids (fun arg => uninstall_extension cmds arg dir)
  | ListLabExtensionsApp => ret tt
  | LinkLabExtensionApp =>
      for_in ids (fun arg => link_package cmds arg dir)
  | UnlinkLabExtensionApp =>
      for_in ids (fun arg => unlink_package cmds arg dir)
  | EnableLabExtensionsApp =>
      for_in ids (fun arg => enable_extension cmds arg dir)
  | DisableLabExtensionsApp =>
      for_in ids (fun arg => disable_extension cmds arg dir)
  end.

(** The undoing calls of [install] and [link] on [ids]. *)
Definition rollback_calls (c : subapp) (dir : string) (ids : list string)
  : M W unit :=
  match c with
  | InstallLabExtensionApp =>
      for_in ids (fun arg => uninstall_extension cmds arg dir)
  | LinkLabExtensionApp =>
      for_in ids (fun arg => unlink_package cmds arg dir)
  | _ => ret tt
  end.

(** The identifier list a class works on: [enable] and [disable] take
    [extra_args] as it is, the other four replace an empty list. *)
Definition identifiers (c : subapp) (self : BaseExtensionApp)
  : M W (list string) :=
  match c with
  | EnableLabExtensionsApp | DisableLabExtensionsApp
  | ListLabExtensionsApp => ret (extra_args self)
  | _ => or_cwd cmds (extra_args self)
  end.

End Steps.

(** [k] is a per-identifier call of class [c], on whatever identifier. *)
Definition is_forward (c : subapp) (k : call) : bool :=
  match c, k with
  | InstallLabExtensionApp, Call_install_extension _ _
  | UninstallLabExtensionApp, Call_uninstall_extension _ _
  | LinkLabExtensionApp, Call_link_package _ _
  | UnlinkLabExtensionApp, Call_unlink_package _ _
  | EnableLabExtensionsApp, Call_enable_extension _ _
  | DisableLabExtensionsApp, Call_disable_extension _ _ => true
  | _, _ => false
  end.

(** The same configuration with other positional arguments. *)
Definition with_extra_args (args : list string) (self : BaseExtensionApp)
  : BaseExtensionApp :=
  {| extra_args := args; app_dir := app_dir self;
     should_build := should_build self; should_clean := should_clean self |}.

(** The message of [LabExtensionApp.start]. *)
Definition no_subcommand_message : string :=
  "Please supply at least one subcommand: disable, enable, install, link, list, uninstall, unlink".

(** ** The statement about the build of [unlink] and [uninstall]

    The [build] call is made exactly when building is on and some call of
    the run reported a change. *)
Definition build_iff_changed {W} (cmds : Commands W) (c : subapp)
    (self : BaseExtensionApp) (w : W) : Prop :=
  build_called (log (start cmds c self w)) = true <->
  should_build self = true /\ some_changed (log (start cmds c self w)) = true.

(** ** More ways to read a run *)

(** The application directory a call was given. *)
Definition call_dir (k : call) : string :=
  match k with
  | Call_install_extension _ d | Call_uninstall_extension _ d
  | Call_list_extensions d
  | Call_enable_extension _ d | Call_disable_extension _ d
  | Call_link_package _ d | Call_unlink_package _ d
  | Call_build d _ => d
  end.

(** [k] is a call that undoes a per-identifier call of class [c]; only
    [install] and [link] have such calls. *)
Definition is_rollback (c : subapp) (k : call) : bool :=
  match c, k with
  | InstallLabExtensionApp, Call_uninstall_extension _ _
  | LinkLabExtensionApp, Call_unlink_package _ _ => true
  | _, _ => false
  end.

(** Every call of the run satisfies [p]. *)
Definition all_calls (p : call -> bool) (tr : list event) : bool :=
  forallb p (calls tr).

(** [k] goes to the directory [dir], and cleans as [clean] says when it is
    a [build]. *)
Definition configured (dir : string) (clean : bool) (k : call) : bool :=
  String.eqb (call_dir k) dir
  && match k with
     | Call_build _ c => Bool.eqb c clean
     | _ => true
     end.

(** How many [build] calls the run made. *)
Definition build_count (tr : list event) : nat :=
  List.length (filter is_build (calls tr)).

(** The same collaborators with another [os.getcwd]. *)
Definition with_getcwd {W} (g : W -> result string) (cmds : Commands W)
  : Commands W :=
  {| cmd_install_extension := cmd_install_extension cmds;
     cmd_uninstall_extension := cmd_uninstall_extension cmds;
     cmd_list_extensions := cmd_list_extensions cmds;
     cmd_enable_extension := cmd_enable_extension cmds;
     cmd_disable_extension := cmd_disable_extension cmds;
     cmd_link_package := cmd_link_package cmds;
     cmd_unlink_package := cmd_unlink_package cmds;
     cmd_build := cmd_build cmds;
     cmd_getcwd := g;
     cmd_JupyterApp_start := cmd_JupyterApp_start cmds |}.

(** The order [sorted] puts strings in. *)
Definition string_le (a b : string) : Prop := String.leb a b = true.

(** The exception [JupyterApp.start] raises after it ran a subcommand. *)
Definition NoStart : exn := Exception "NoStart" "".

(** ** A small extension manager to run the methods on

    It keeps the installed and the linked identifiers; removing an
    identifier listed in [stuck] raises, and [build] raises [build_error]
    when there is one. *)

Module Toy.

Record lab : Type := {
  installed : list string;
  linked : list string;
  stuck : list string;
  build_error : option exn;
  cwd : option string
}.

Definition mem (x : string) (l : list string) : bool :=
  existsb (String.eqb x) l.

Definition without (x : string) (l : list string) : list string :=
  filter (fun y => negb (String.eqb x y)) l.

Definition set_installed (l : list string) (w : lab) : lab :=
  {| installed := l; linked := linked w; stuck := stuck w;
     build_error := build_error w; cwd := cwd w |}.

Definition set_linked (l : list string) (w : lab) : lab :=
  {| installed := installed w; linked := l; stuck := stuck w;
     build_error := build_error w; cwd := cwd w |}.

Definition install (x dir : string) (w : lab) : result unit * lab :=
  (Ok tt, set_installed (x :: installed w) w).

Definition uninstall (x dir : string) (w : lab) : result bool * lab :=
  if mem x (stuck w) then (Raise (Exception "OSError" x), w)
  else if mem x (installed w)
       then (Ok true, set_installed (without x (installed w)) w)
       else (Ok false, w).

Definition link (x dir : string) (w : lab) : result unit * lab :=
  (Ok tt, set_linked (x :: linked w) w).

Definition unlink (x dir : string) (w : lab) : result bool * lab :=
  if mem x (stuck w) then (Raise (Exception "OSError" x), w)
  else if mem x (linked w)
       then (Ok true, set_linked (without x (linked w)) w)
       else (Ok false, w).

Definition toggle (x dir : string) (w : lab) : result unit * lab :=
  if mem x (stuck w) then (Raise (Exception "ValueError" x), w)
  else (Ok tt, w).

Definition run_build (dir : string) (clean : bool) (w : lab)
  : result unit * lab :=
  match build_error w with
  | Some e => (Raise e, w)
  | None => (Ok tt, w)
  end.

Definition getcwd (w : lab) : result string :=
  match cwd w with
  | Some d => Ok d
  | None => Raise (Exception "FileNotFoundError" "getcwd")
  end.

Definition cmds : Commands lab := {|
  cmd_install_extension := install;
  cmd_uninstall_extension := uninstall;
  cmd_list_extensions := fun _ w => (Ok tt, w);
  cmd_enable_extension := toggle;
  cmd_disable_extension := toggle;
  cmd_link_package := link;
  cmd_unlink_package := unlink;
  cmd_build := run_build;
  cmd_getcwd := getcwd;
  cmd_JupyterApp_start := fun w => (Ok tt, w)
|}.

Definition build_failed : exn := Exception "RuntimeError" "build failed".

(** Nothing installed or linked, [build] works, the process is in [/work]. *)
Definition empty : lab := {|
  installed := []; linked := []; stuck := [];
  build_error := None; cwd := Some "/work"
|}.

(** [build] fails. *)
Definition failing_build : lab := {|
  installed := []; linked := []; stuck := [];
  build_error := Some build_failed; cwd := Some "/work"
|}.

(** [build] fails and [extB] cannot be removed. *)
Definition failing_build_stuck : lab := {|
  installed := []; linked := []; stuck := ["extB"];
  build_error := Some build_failed; cwd := Some "/work"
|}.

(** [pkgA] is linked and installed, [pkgB] cannot be removed. *)
Definition one_linked_one_stuck : lab := {|
  installed := ["pkgA"]; linked := ["pkgA"]; stuck := ["pkgB"];
  build_error := None; cwd := Some "/work"
|}.

(** [pkgA] and [pkgB] are linked and installed. *)
Definition two_linked : lab := {|
  installed := ["pkgA"; "pkgB"]; linked := ["pkgA"; "pkgB"]; stuck := [];
  build_error := None; cwd := Some "/work"
|}.

(** An extension manager that refuses to install or link the identifiers
    listed in [stuck]; everything else as in [cmds]. *)
Definition install_checked (x dir : string) (w : lab) : result unit * lab :=
  if mem x (stuck w) then (Raise (Exception "ValueError" x), w)
  else install x dir w.

Definition link_checked (x dir : string) (w : lab) : result unit * lab :=
  if mem x (stuck w) then (Raise (Exception "ValueError" x), w)
  else link x dir w.

Definition cmds_checked : Commands lab := {|
  cmd_install_extension := install_checked;
  cmd_uninstall_extension := uninstall;
  cmd_list_extensions := fun _ w => (Ok tt, w);
  cmd_enable_extension := toggle;
  cmd_disable_extension := toggle;
  cmd_link_package := link_checked;
  cmd_unlink_package := unlink;
  cmd_build := run_build;
  cmd_getcwd := getcwd;
  cmd_JupyterApp_start := fun w => (Raise NoStart, w)
|}.

(** [extB] is refused, [build] works. *)
Definition one_refused : lab := {|
  installed := []; linked := []; stuck := ["extB"];
  build_error := None; cwd := Some "/work"
|}.

(** [build] is interrupted from the keyboard. *)
Definition interrupted_build : lab := {|
  installed := []; linked := []; stuck := [];
  build_error := Some KeyboardInterrupt; cwd := Some "/work"
|}.


(** The working directory is gone. *)
Definition no_cwd : lab := {|
  installed := []; linked := []; stuck := [];
  build_error := None; cwd := None
|}.

End Toy.

(** * Properties *)

(** ** Scenarios of section 8 of the specification, run on [Toy] *)

Example install_extA_extB_build_fails :
  let r := start Toy.cmds InstallLabExtensionApp
                 (new_app InstallLabExtensionApp ["extA"; "extB"])
                 Toy.failing_build in
  calls (log r) =
    [ Call_install_extension "extA" ""; Call_install_extension "extB" "";
      Call_build "" false;
      Call_uninstall_extension "extA" ""; Call_uninstall_extension "extB" "" ]
  /\ res r = Raise Toy.build_failed.
Proof. split; reflexivity. Qed.

Example unlink_pkgA_unchanged_no_build :
  let r := start Toy.cmds UnlinkLabExtensionApp
                 (new_app UnlinkLabExtensionApp ["pkgA"]) Toy.empty in
  log r = [ Ev (Call_unlink_package "pkgA" "") (ReturnedBool false) ]
  /\ res r = Ok tt.
Proof. split; reflexivity. Qed.

Example list_calls_list_extensions_once :
  let r := start Toy.cmds ListLabExtensionsApp
                 (new_app ListLabExtensionsApp []) Toy.empty in
  log r = [ Ev (Call_list_extensions "") Returned ] /\ res r = Ok tt.
Proof. split; reflexivity. Qed.

Example no_subcommand_given :
  res (LabExtensionApp_start Toy.cmds Toy.empty) =
  Raise (SystemExit (ExitObj no_subcommand_message)).
Proof. reflexivity. Qed.

(** ** The monad *)

Section MonadFacts.

Context {W A B : Type}.

Lemma bind_ok (m : M W A) (k : A -> M W B) w a w1 t1 :
  m w = Run (Ok a) w1 t1 -> bind m k w = after t1 (k a w1).
Proof.
  intros H. unfold bind, after. rewrite H. now destruct (k a w1).
Qed.

Lemma bind_raise (m : M W A) (k : A -> M W B) w e w1 t1 :
  m w = Run (Raise e) w1 t1 -> bind m k w = Run (Raise e) w1 t1.
Proof. intros H. unfold bind. now rewrite H. Qed.

Lemma try_except_caught (body : M W A) (h : exn -> M W A) w e w1 t1 :
  body w = Run (Raise e) w1 t1 ->
  isinstance_Exception e = true ->
  try_except_Exception body h w = after t1 (h e w1).
Proof.
  intros H He. unfold try_except_Exception, after. rewrite H, He.
  now destruct (h e w1).
Qed.

Lemma try_except_passes (body : M W A) (h : exn -> M W A) w e w1 t1 :
  body w = Run (Raise e) w1 t1 ->
  isinstance_Exception e = false ->
  try_except_Exception body h w = Run (Raise e) w1 t1.
Proof.
  intros H He. unfold try_except_Exception. now rewrite H, He.
Qed.

Lemma try_except_ok (body : M W A) (h : exn -> M W A) w a w1 t1 :
  body w = Run (Ok a) w1 t1 ->
  try_except_Exception body h w = Run (Ok a) w1 t1.
Proof. intros H. unfold try_except_Exception. now rewrite H. Qed.

Lemma after_nil (r : run W A) : after [] r = r.
Proof. now destruct r. Qed.

Lemma after_after t1 t2 (r : run W A) :
  after t1 (after t2 r) = after (t1 ++ t2) r.
Proof. unfold after. simpl. now rewrite app_assoc. Qed.

End MonadFacts.

(** ** Loops over the identifiers *)

Section Loops.

Context {W B : Type}.
Variable f : string -> M W B.

(** A [for] loop and a comprehension make the same calls; the loop
    forgets the values. *)
Lemma for_in_list_comp xs w :
  for_in xs f w = (list_comp f xs ;;; ret tt) w.
Proof.
  revert w. induction xs as [|x xs IH]; intros w; [reflexivity|].
  simpl. unfold bind. destruct (f x w) as [[v|e] w1 t1]; [|reflexivity].
  rewrite IH. unfold bind, ret.
  destruct (list_comp f xs w1) as [[vs|e] w2 t2]; simpl;
    now rewrite ?app_nil_r.
Qed.

Lemma for_in_ok_list_comp xs w w1 t1 :
  for_in xs f w = Run (Ok tt) w1 t1 ->
  exists vs, list_comp f xs w = Run (Ok vs) w1 t1
             /\ List.length vs = List.length xs.
Proof.
  revert w t1. induction xs as [|x xs IH]; intros w t1 H; simpl in *.
  - inversion H; subst. now exists [].
  - unfold bind in *. destruct (f x w) as [[v|e] w2 t2]; [|discriminate].
    destruct (for_in xs f w2) as [[[]|e] w3 t3] eqn:E; [|discriminate].
    inversion H; subst.
    destruct (IH _ _ E) as (vs & Hvs & Hlen).
    exists (v :: vs). rewrite Hvs. unfold ret. simpl.
    now rewrite app_nil_r, Hlen.
Qed.

Lemma for_in_raise_list_comp xs w e w1 t1 :
  for_in xs f w = Run (Raise e) w1 t1 ->
  list_comp f xs w = Run (Raise e) w1 t1.
Proof.
  rewrite for_in_list_comp. unfold bind, ret.
  destruct (list_comp f xs w) as [[vs|e'] w2 t2]; simpl; [discriminate|].
  intros H. now inversion H.
Qed.

Lemma for_in_app l1 l2 w w1 t1 :
  for_in l1 f w = Run (Ok tt) w1 t1 ->
  for_in (l1 ++ l2) f w = after t1 (for_in l2 f w1).
Proof.
  revert w t1. induction l1 as [|x l1 IH]; intros w t1 H; simpl in *.
  - inversion H; subst. now rewrite after_nil.
  - unfold bind in *. destruct (f x w) as [[v|e] w2 t2]; [|discriminate].
    destruct (for_in l1 f w2) as [[[]|e] w3 t3] eqn:E; [|discriminate].
    inversion H; subst.
    rewrite (IH _ _ E). unfold after.
    destruct (for_in l2 f w1); simpl. now rewrite app_assoc.
Qed.

(** The loop stops at the first call that raises. *)
Lemma for_in_stops l1 x l2 w w1 t1 e w2 t2 :
  for_in l1 f w = Run (Ok tt) w1 t1 ->
  f x w1 = Run (Raise e) w2 t2 ->
  for_in (l1 ++ x :: l2) f w = Run (Raise e) w2 (t1 ++ t2).
Proof.
  intros H1 H2. rewrite for_in_app with (1 := H1). simpl.
  rewrite bind_raise with (1 := H2). reflexivity.
Qed.

End Loops.

(** ** Calls to one collaborator over a list of identifiers *)

Section Invoke.

Context {W A : Type}.
Variable mk : string -> call.
Variable obs : A -> outcome.
Variable g : string -> W -> result A * W.

Local Abbreviation step := (fun x : string => invoke (mk x) obs (g x)).

Lemma step_raise_log x w e w1 t1 :
  step x w = Run (Raise e) w1 t1 -> t1 = [Ev (mk x) (Raised e)].
Proof.
  unfold invoke. destruct (g x w) as [[a|e'] w']; intros H;
    inversion H. reflexivity.
Qed.

Lemma returned_events_calls xs vs :
  List.length vs = List.length xs ->
  calls (returned_events mk obs xs vs) = map mk xs.
Proof.
  revert vs. induction xs as [|x xs IH]; intros [|v vs] H;
    simpl in *; try discriminate; [reflexivity|].
  unfold calls, returned_events in *. simpl. f_equal. apply IH. lia.
Qed.

Lemma returned_events_cons x xs v vs :
  returned_events mk obs (x :: xs) (v :: vs) =
  Ev (mk x) (obs v) :: returned_events mk obs xs vs.
Proof. reflexivity. Qed.

(** Every run of the comprehension has one of the two shapes. *)
Lemma list_comp_shape xs w : comp_shape mk obs xs (list_comp step xs w).
Proof.
  revert w. induction xs as [|x xs IH]; intros w; simpl.
  - apply comp_all with (vs := []). reflexivity.
  - unfold bind. unfold invoke at 1.
    destruct (g x w) as [[v|e] w1].
    + specialize (IH w1). inversion IH as [vs w2 Hlen Heq|l1 y l2 vs e w2 Hxs Hlen Heq].
      * unfold ret. simpl.
        replace (returned_events mk obs xs vs ++ [])
          with (returned_events mk obs xs vs) by now rewrite app_nil_r.
        rewrite <- returned_events_cons. apply comp_all. simpl. lia.
      * simpl. rewrite app_comm_cons, <- returned_events_cons.
        apply comp_stop with (l2 := l2); [now rewrite Hxs | simpl; lia].
    + apply comp_stop with (l1 := []) (l2 := xs) (vs := []); reflexivity.
Qed.

Hypothesis mk_not_build : forall x, is_build (mk x) = false.
Hypothesis obs_not_raised : forall a, raised (obs a) = false.

Lemma returned_events_no_build xs vs :
  build_called (returned_events mk obs xs vs) = false.
Proof.
  unfold build_called, calls, returned_events. rewrite !map_map. simpl.
  induction (combine xs vs) as [|p l IH]; simpl; [reflexivity|].
  now rewrite mk_not_build, IH.
Qed.

Lemma returned_events_not_raised xs vs :
  per_identifier_raised (returned_events mk obs xs vs) = false.
Proof.
  unfold per_identifier_raised, returned_events.
  induction (combine xs vs) as [|p l IH]; simpl; [reflexivity|].
  now rewrite obs_not_raised, andb_false_r, IH.
Qed.

(** A comprehension over per-identifier calls never calls [build]. *)
Lemma list_comp_no_build xs w :
  build_called (log (list_comp step xs w)) = false.
Proof.
  destruct (list_comp_shape xs w); simpl.
  - apply returned_events_no_build.
  - unfold build_called, calls. rewrite map_app, existsb_app. simpl.
    fold (calls (returned_events mk obs l1 vs)).
    fold (build_called (returned_events mk obs l1 vs)).
    now rewrite returned_events_no_build, mk_not_build.
Qed.

Lemma for_in_no_build xs w :
  build_called (log (for_in xs step w)) = false.
Proof.
  rewrite for_in_list_comp. unfold bind, ret.
  pose proof (list_comp_no_build xs w) as H.
  destruct (list_comp step xs w) as [[vs|e] w1 t1]; simpl in *;
    now rewrite ?app_nil_r.
Qed.

(** When no call raised, the comprehension returned and called every
    identifier, in order. *)
Lemma list_comp_not_raised xs w :
  per_identifier_raised (log (list_comp step xs w)) = false ->
  exists vs w1,
    list_comp step xs w = Run (Ok vs) w1 (returned_events mk obs xs vs)
    /\ List.length vs = List.length xs.
Proof.
  destruct (list_comp_shape xs w) as [vs w1 Hlen|l1 x l2 vs e w1 Hxs Hlen];
    simpl; intros H.
  - now exists vs, w1.
  - unfold per_identifier_raised in H. rewrite existsb_app in H. simpl in H.
    rewrite mk_not_build in H. simpl in H. rewrite orb_true_r in H.
    discriminate.
Qed.

End Invoke.

Lemma some_changed_returned mk xs vs :
  List.length vs = List.length xs ->
  some_changed (returned_events mk ReturnedBool xs vs) = any vs.
Proof.
  revert vs. induction xs as [|x xs IH]; intros [|v vs] H;
    simpl in *; try discriminate; [reflexivity|].
  unfold some_changed, any in *. cbn [returned_events combine map existsb].
  unfold returned_events in IH. rewrite IH by lia. now destruct v.
Qed.

(** ** Runs of the [start] methods *)

Section Runs.

Variable W : Type.
Variable cmds : Commands W.

Lemma or_cwd_run args w :
  or_cwd cmds args w = Run (res (or_cwd cmds args w)) w [].
Proof.
  destruct args as [|a args]; [|reflexivity].
  simpl. unfold bind, os_getcwd, ret. now destruct (cmd_getcwd cmds w).
Qed.

Lemma identifiers_run c self w :
  identifiers cmds c self w = Run (res (identifiers cmds c self w)) w [].
Proof. destruct c; simpl; try reflexivity; apply or_cwd_run. Qed.

Lemma build_run dir clean w :
  exists o, log (build cmds dir clean w) = [Ev (Call_build dir clean) o]
            /\ o <> ReturnedBool true.
Proof.
  unfold build, invoke. destruct (cmd_build cmds dir clean w) as [[[]|e] w1];
    eexists; split; simpl; try reflexivity; discriminate.
Qed.

(** [build] is not called by a sequence whose parts do not call it. *)
Lemma no_build_bind {A B} (m : M W A) (k : A -> M W B) w :
  build_called (log (m w)) = false ->
  (forall a w1, build_called (log (k a w1)) = false) ->
  build_called (log (bind m k w)) = false.
Proof.
  intros Hm Hk. unfold bind.
  destruct (m w) as [[a|e] w1 t1]; simpl in *; [|exact Hm].
  specialize (Hk a w1). destruct (k a w1) as [r w2 t2]; simpl in *.
  unfold build_called, calls in *. now rewrite map_app, existsb_app, Hm, Hk.
Qed.

Lemma no_build_or_cwd args w :
  build_called (log (or_cwd cmds args w)) = false.
Proof. now rewrite or_cwd_run. Qed.

End Runs.

(** ** The build step *)

Ltac unfold_calls :=
  unfold install_extension, uninstall_extension, enable_extension,
    disable_extension, link_package, unlink_package.

Ltac unfold_calls_in H :=
  unfold install_extension, uninstall_extension, enable_extension,
    disable_extension, link_package, unlink_package in H.

(** A loop or a comprehension over per-identifier calls does not build. *)
Ltac loop_no_build :=
  unfold_calls;
  first [ eapply list_comp_no_build | eapply for_in_no_build ];
  intros; reflexivity.

Lemma no_build_flag_clears_should_build (self : BaseExtensionApp) :
  should_build (apply_flag "no-build" self) = false.
Proof. reflexivity. Qed.

Lemma clean_flag_keeps_should_build (self : BaseExtensionApp) :
  should_build (apply_flag "clean" self) = should_build self.
Proof. reflexivity. Qed.

Section Build.

Variable W : Type.
Variable cmds : Commands W.

(** C7. [enable] and [disable] never call [build], whatever the identifier
    list, the flags [should_build] and [should_clean], the world and the
    outcome of the calls. *)
Theorem enable_disable_never_build (self : BaseExtensionApp) (w : W) :
  build_called (log (EnableLabExtensionsApp_start cmds self w)) = false
  /\ build_called (log (DisableLabExtensionsApp_start cmds self w)) = false.
Proof.
  split.
  - unfold EnableLabExtensionsApp_start.
    apply no_build_bind; [loop_no_build | reflexivity].
  - unfold DisableLabExtensionsApp_start.
    apply no_build_bind; [loop_no_build | reflexivity].
Qed.

(** C5. With [should_build] false (what [--no-build] sets), [install],
    [link], [unlink] and [uninstall] make no [build] call, whatever the
    identifier list and whatever the per-identifier calls do. *)
Theorem no_build_when_should_build_false
    (c : subapp) (self : BaseExtensionApp) (w : W) :
  In c [InstallLabExtensionApp; LinkLabExtensionApp;
        UnlinkLabExtensionApp; UninstallLabExtensionApp] ->
  should_build self = false ->
  build_called (log (start cmds c self w)) = false.
Proof.
  intros Hc Hsb.
  destruct Hc as [<-|[<-|[<-|[<-|[]]]]]; simpl;
    unfold InstallLabExtensionApp_start, LinkLabExtensionApp_start,
      UnlinkLabExtensionApp_start, UninstallLabExtensionApp_start;
    rewrite Hsb;
    (apply no_build_bind; [apply no_build_or_cwd | intros ids w1]).
  - apply no_build_bind; [loop_no_build | reflexivity].
  - apply no_build_bind; [loop_no_build | reflexivity].
  - apply no_build_bind.
    + apply no_build_bind; [loop_no_build | reflexivity].
    + intros ans w2. now rewrite andb_false_r.
  - apply no_build_bind.
    + apply no_build_bind; [loop_no_build | reflexivity].
    + intros ans w2. now rewrite andb_false_r.
Qed.

(** C10. With an empty identifier list [enable] and [disable] return at
    once: no collaborator call is made, [os.getcwd] is not consulted and
    the world is left as it was. *)
Theorem enable_disable_empty_is_noop (self : BaseExtensionApp) (w : W) :
  extra_args self = [] ->
  EnableLabExtensionsApp_start cmds self w = Run (Ok tt) w []
  /\ DisableLabExtensionsApp_start cmds self w = Run (Ok tt) w [].
Proof.
  intros H. unfold EnableLabExtensionsApp_start, DisableLabExtensionsApp_start.
  rewrite H. split; reflexivity.
Qed.

End Build.

(** ** [unlink] and [uninstall] *)

Section Removing.

Variable W : Type.
Variable cmds : Commands W.

(** The two shapes of a run of [unlink] or [uninstall] on the identifiers
    [ids]: a call raises and the run ends there, or every call returns and
    the values decide about [build]. *)
Lemma removing_run (c : subapp) (self : BaseExtensionApp) (w : W)
    (ids : list string) :
  In c [UnlinkLabExtensionApp; UninstallLabExtensionApp] ->
  res (or_cwd cmds (extra_args self) w) = Ok ids ->
  let mk := fun x => forward_call c x (app_dir self) in
  (exists l1 x l2 vs e w1,
      ids = l1 ++ x :: l2 /\ List.length vs = List.length l1 /\
      start cmds c self w =
        Run (Raise e) w1
            (returned_events mk ReturnedBool l1 vs ++ [Ev (mk x) (Raised e)]))
  \/ (exists vs w1,
      List.length vs = List.length ids /\
      start cmds c self w =
        after (returned_events mk ReturnedBool ids vs)
              ((if any vs && should_build self
                then build cmds (app_dir self) (should_clean self)
                else ret tt) w1)).
Proof.
  intros Hc Hids mk.
  pose proof (or_cwd_run cmds (extra_args self) w) as Hor.
  rewrite Hids in Hor.
  destruct Hc as [<-|[<-|[]]]; simpl;
    unfold UnlinkLabExtensionApp_start, UninstallLabExtensionApp_start;
    rewrite bind_ok with (1 := Hor), after_nil.
  - pose proof (@list_comp_shape W bool mk ReturnedBool
                  (fun x => cmd_unlink_package cmds x (app_dir self)) ids w)
      as S.
    unfold unlink_package.
    inversion S as [vs w1 Hlen Heq|l1 x l2 vs e w1 Hxs Hlen Heq].
    + right. exists vs, w1. split; [exact Hlen|].
      unfold bind at 1 2. subst mk. simpl in Heq. rewrite <- Heq.
      unfold ret at 1. simpl. rewrite app_nil_r.
      unfold after. now destruct (_ w1).
    + left. exists l1, x, l2, vs, e, w1. repeat split; trivial.
      unfold bind. subst mk. simpl in Heq. now rewrite <- Heq.
  - pose proof (@list_comp_shape W bool mk ReturnedBool
                  (fun x => cmd_uninstall_extension cmds x (app_dir self))
                  ids w) as S.
    unfold uninstall_extension.
    inversion S as [vs w1 Hlen Heq|l1 x l2 vs e w1 Hxs Hlen Heq].
    + right. exists vs, w1. split; [exact Hlen|].
      unfold bind at 1 2. subst mk. simpl in Heq. rewrite <- Heq.
      unfold ret at 1. simpl. rewrite app_nil_r.
      unfold after. now destruct (_ w1).
    + left. exists l1, x, l2, vs, e, w1. repeat split; trivial.
      unfold bind. subst mk. simpl in Heq. now rewrite <- Heq.
Qed.

Lemma start_without_cwd (c : subapp) (self : BaseExtensionApp) (w : W) e :
  In c [InstallLabExtensionApp; LinkLabExtensionApp;
        UnlinkLabExtensionApp; UninstallLabExtensionApp] ->
  res (or_cwd cmds (extra_args self) w) = Raise e ->
  start cmds c self w = Run (Raise e) w [].
Proof.
  intros Hc He. pose proof (or_cwd_run cmds (extra_args self) w) as Hor.
  rewrite He in Hor.
  destruct Hc as [<-|[<-|[<-|[<-|[]]]]]; simpl;
    unfold InstallLabExtensionApp_start, LinkLabExtensionApp_start,
      UnlinkLabExtensionApp_start, UninstallLabExtensionApp_start;
    now rewrite bind_raise with (1 := Hor).
Qed.

Lemma removing_call_not_build c x dir :
  In c [UnlinkLabExtensionApp; UninstallLabExtensionApp] ->
  is_build (forward_call c x dir) = false.
Proof. intros [<-|[<-|[]]]; reflexivity. Qed.

(** C2, amended. For [unlink] and [uninstall], in a run where no
    per-identifier call raised, [build] is called if and only if
    [should_build] is true and at least one per-identifier call returned
    [changed = True]; this for every identifier list and every flag. *)
Theorem build_iff_changed_when_no_call_raised
    (c : subapp) (self : BaseExtensionApp) (w : W) :
  In c [UnlinkLabExtensionApp; UninstallLabExtensionApp] ->
  per_identifier_raised (log (start cmds c self w)) = false ->
  build_iff_changed cmds c self w.
Proof.
  intros Hc Hnr. unfold build_iff_changed.
  destruct (res (or_cwd cmds (extra_args self) w)) as [ids|e] eqn:Hids.
  - destruct (@removing_run c self w ids Hc Hids)
      as [(l1&x&l2&vs&e&w1&Hxs&Hlen&Hrun)|(vs&w1&Hlen&Hrun)].
    + rewrite Hrun in Hnr. simpl in Hnr.
      unfold per_identifier_raised in Hnr. rewrite existsb_app in Hnr.
      simpl in Hnr. rewrite (removing_call_not_build _ _ Hc) in Hnr.
      simpl in Hnr. rewrite orb_true_r in Hnr. discriminate.
    + rewrite Hrun. unfold after. simpl log.
      unfold build_called, some_changed, calls.
      rewrite map_app, !existsb_app.
      fold (calls (returned_events (fun x => forward_call c x (app_dir self))
                                   ReturnedBool ids vs)).
      fold (build_called
              (returned_events (fun x => forward_call c x (app_dir self))
                               ReturnedBool ids vs)).
      fold (some_changed
              (returned_events (fun x => forward_call c x (app_dir self))
                               ReturnedBool ids vs)).
      rewrite returned_events_no_build
        by (intros; first [now apply removing_call_not_build | reflexivity]).
      rewrite some_changed_returned by exact Hlen.
      destruct (any vs) eqn:Hany, (should_build self) eqn:Hsb; simpl;
        try (split; [discriminate | intros [? ?]; discriminate]).
      destruct (build_run cmds (app_dir self) (should_clean self) w1)
        as (o & Hlog & Ho).
      rewrite Hlog. simpl. split; auto.
  - rewrite (@start_without_cwd c self w e); simpl.
    + split; [discriminate | intros [? ?]; discriminate].
    + destruct Hc as [<-|[<-|[]]]; simpl; auto.
    + exact Hids.
Qed.

(** C9. For [unlink] and [uninstall], in a run where no per-identifier
    call raised, the call is made for every identifier of the list, in
    order, also for those after one that returned [changed = True]; the
    [build] call, if any, comes after all of them. *)
Theorem every_identifier_is_called
    (c : subapp) (self : BaseExtensionApp) (w : W) (ids : list string) :
  In c [UnlinkLabExtensionApp; UninstallLabExtensionApp] ->
  res (or_cwd cmds (extra_args self) w) = Ok ids ->
  per_identifier_raised (log (start cmds c self w)) = false ->
  calls (log (start cmds c self w)) =
    map (fun x => forward_call c x (app_dir self)) ids
    ++ (if build_called (log (start cmds c self w))
        then [Call_build (app_dir self) (should_clean self)] else []).
Proof.
  intros Hc Hids Hnr.
  destruct (@removing_run c self w ids Hc Hids)
    as [(l1&x&l2&vs&e&w1&Hxs&Hlen&Hrun)|(vs&w1&Hlen&Hrun)].
  - rewrite Hrun in Hnr. simpl in Hnr.
    unfold per_identifier_raised in Hnr. rewrite existsb_app in Hnr.
    simpl in Hnr. rewrite (removing_call_not_build _ _ Hc) in Hnr.
    simpl in Hnr. rewrite orb_true_r in Hnr. discriminate.
  - rewrite Hrun. unfold after. simpl log.
    unfold build_called, calls. rewrite map_app, existsb_app.
    fold (calls (returned_events (fun x => forward_call c x (app_dir self))
                                 ReturnedBool ids vs)).
    fold (build_called
            (returned_events (fun x => forward_call c x (app_dir self))
                             ReturnedBool ids vs)).
    rewrite returned_events_no_build
      by (intros; first [now apply removing_call_not_build | reflexivity]).
    rewrite returned_events_calls by exact Hlen.
    destruct (any vs && should_build self); simpl.
    + destruct (build_run cmds (app_dir self) (should_clean self) w1)
        as (o & Hlog & Ho).
      rewrite Hlog. reflexivity.
    + reflexivity.
Qed.

End Removing.

(** ** Step by step: what a loop that returned, or stopped, has logged *)

Section LoopLogs.

Context {W A : Type}.
Variable mk : string -> call.
Variable obs : A -> outcome.
Variable g : string -> W -> result A * W.

Local Abbreviation step := (fun x : string => invoke (mk x) obs (g x)).

Lemma for_in_ok_calls xs w w1 t1 :
  for_in xs step w = Run (Ok tt) w1 t1 -> calls t1 = map mk xs.
Proof.
  intros H. destruct (for_in_ok_list_comp _ _ _ H) as (vs & Hvs & Hlen).
  pose proof (list_comp_shape mk obs g xs w) as S. rewrite Hvs in S.
  inversion S; subst. now apply returned_events_calls.
Qed.

Lemma for_in_single_raise x w e w1 t1 :
  for_in [x] step w = Run (Raise e) w1 t1 ->
  step x w = Run (Raise e) w1 t1 /\ t1 = [Ev (mk x) (Raised e)].
Proof.
  simpl. unfold bind, ret. intros H.
  assert (E : step x w = Run (Raise e) w1 t1).
  { destruct (invoke (mk x) obs (g x) w) as [[a|e'] w2 t2];
      inversion H; reflexivity. }
  split; [exact E|]. now apply step_raise_log in E.
Qed.

End LoopLogs.

(** ** Failures *)

Lemma no_build_map (mk : string -> call) (l : list string) :
  (forall x, is_build (mk x) = false) -> existsb is_build (map mk l) = false.
Proof.
  intros H. induction l as [|x l IH]; simpl; [reflexivity|].
  now rewrite H, IH.
Qed.

Section Failures.

Variable W : Type.
Variable cmds : Commands W.

Lemma forward_calls_ok_calls c dir ids w w1 t1 :
  c <> ListLabExtensionsApp ->
  forward_calls cmds c dir ids w = Run (Ok tt) w1 t1 ->
  calls t1 = map (fun x => forward_call c x dir) ids.
Proof.
  intros Hc H. destruct c; try congruence; simpl in H;
    unfold_calls_in H; now apply for_in_ok_calls in H.
Qed.

Lemma forward_calls_single_raise c dir x w e w1 t1 :
  c <> ListLabExtensionsApp ->
  forward_calls cmds c dir [x] w = Run (Raise e) w1 t1 ->
  t1 = [Ev (forward_call c x dir) (Raised e)].
Proof.
  intros Hc H. destruct c; try congruence; unfold forward_calls in H;
    unfold_calls_in H; apply for_in_single_raise in H; now destruct H.
Qed.

Lemma rollback_calls_ok_calls c dir ids w w1 t1 :
  In c [InstallLabExtensionApp; LinkLabExtensionApp] ->
  rollback_calls cmds c dir ids w = Run (Ok tt) w1 t1 ->
  calls t1 = map (fun x => rollback_call c x dir) ids.
Proof.
  intros [<-|[<-|[]]] H; simpl in H; unfold_calls_in H;
    now apply for_in_ok_calls in H.
Qed.

Lemma rollback_calls_single_raise c dir x w e w1 t1 :
  In c [InstallLabExtensionApp; LinkLabExtensionApp] ->
  rollback_calls cmds c dir [x] w = Run (Raise e) w1 t1 ->
  t1 = [Ev (rollback_call c x dir) (Raised e)].
Proof.
  intros [<-|[<-|[]]] H; unfold rollback_calls in H; unfold_calls_in H;
    apply for_in_single_raise in H; now destruct H.
Qed.

(** A loop that returned on [l1] and raises on [x] raises on
    [l1 ++ x :: l2], and so does the comprehension. *)
Lemma list_comp_stops {B} (f : string -> M W B) l1 x l2 w w1 t1 e w2 t2 :
  for_in l1 f w = Run (Ok tt) w1 t1 ->
  for_in [x] f w1 = Run (Raise e) w2 t2 ->
  list_comp f (l1 ++ x :: l2) w = Run (Raise e) w2 (t1 ++ t2).
Proof.
  intros H1 H2. apply for_in_raise_list_comp.
  apply for_in_stops with (w1 := w1); [exact H1|].
  simpl in H2. unfold bind, ret in H2.
  destruct (f x w1) as [[b|e'] w3 t3]; inversion H2; reflexivity.
Qed.

(** C3. For [unlink], [uninstall], [enable] and [disable]: when the calls
    on the identifiers [l1] return and the call on the next identifier [x]
    raises [e], the method raises [e] from the world that call left; the
    calls made are those on [l1] and on [x], none on the identifiers [l2]
    that follow, and no [build]. *)
Theorem first_failure_propagates
    (c : subapp) (self : BaseExtensionApp) (w : W)
    (l1 : list string) (x : string) (l2 : list string)
    (w1 : W) (t1 : list event) (e : exn) (w2 : W) (t2 : list event) :
  In c [UnlinkLabExtensionApp; UninstallLabExtensionApp;
        EnableLabExtensionsApp; DisableLabExtensionsApp] ->
  res (identifiers cmds c self w) = Ok (l1 ++ x :: l2) ->
  forward_calls cmds c (app_dir self) l1 w = Run (Ok tt) w1 t1 ->
  forward_calls cmds c (app_dir self) [x] w1 = Run (Raise e) w2 t2 ->
  start cmds c self w = Run (Raise e) w2 (t1 ++ t2)
  /\ calls (t1 ++ t2) =
       map (fun y => forward_call c y (app_dir self)) (l1 ++ [x])
  /\ build_called (t1 ++ t2) = false.
Proof.
  intros Hc Hids H1 H2.
  assert (Hnl : c <> ListLabExtensionsApp)
    by (destruct Hc as [<-|[<-|[<-|[<-|[]]]]]; discriminate).
  assert (Hcalls : calls (t1 ++ t2) =
            map (fun y => forward_call c y (app_dir self)) (l1 ++ [x])).
  { unfold calls. rewrite !map_app.
    fold (calls t1). rewrite forward_calls_ok_calls with (1 := Hnl) (2 := H1).
    now rewrite forward_calls_single_raise with (1 := Hnl) (2 := H2). }
  split; [|split; [exact Hcalls|]].
  - pose proof (identifiers_run cmds c self w) as Hor. rewrite Hids in Hor.
    destruct Hc as [<-|[<-|[<-|[<-|[]]]]];
      unfold forward_calls in H1, H2; unfold identifiers in Hor;
      pose proof (@list_comp_stops _ _ _ _ l2 _ _ _ _ _ _ H1 H2) as Hstop;
      simpl start.
    + unfold UnlinkLabExtensionApp_start.
      rewrite bind_ok with (1 := Hor), after_nil.
      apply bind_raise. now apply bind_raise.
    + unfold UninstallLabExtensionApp_start.
      rewrite bind_ok with (1 := Hor), after_nil.
      apply bind_raise. now apply bind_raise.
    + unfold EnableLabExtensionsApp_start. inversion Hor as [Hargs].
      rewrite Hargs. now apply bind_raise.
    + unfold DisableLabExtensionsApp_start. inversion Hor as [Hargs].
      rewrite Hargs. now apply bind_raise.
  - unfold build_called. rewrite Hcalls. apply no_build_map.
    intros y. destruct Hc as [<-|[<-|[<-|[<-|[]]]]]; reflexivity.
Qed.

End Failures.

(** ** [install] and [link]: rollback when the build fails *)

Section Rollback.

Variable W : Type.
Variable cmds : Commands W.

Lemma build_raise_log dir clean w e w1 t1 :
  build cmds dir clean w = Run (Raise e) w1 t1 ->
  t1 = [Ev (Call_build dir clean) (Raised e)].
Proof.
  unfold build, invoke. destruct (cmd_build cmds dir clean w) as [[[]|e'] w'];
    intros H; inversion H; reflexivity.
Qed.

(** The run of [install] or [link] once the per-identifier calls have
    returned and [build] has raised an [Exception]: what is left is the
    handler, run from the world [build] left. *)
Lemma mutating_run_build_failed c self w ids w1 t1 e w2 t2 :
  In c [InstallLabExtensionApp; LinkLabExtensionApp] ->
  should_build self = true ->
  res (or_cwd cmds (extra_args self) w) = Ok ids ->
  forward_calls cmds c (app_dir self) ids w = Run (Ok tt) w1 t1 ->
  build cmds (app_dir self) (should_clean self) w1 = Run (Raise e) w2 t2 ->
  isinstance_Exception e = true ->
  start cmds c self w =
    after (t1 ++ t2)
          ((rollback_calls cmds c (app_dir self) ids ;;; raise e) w2).
Proof.
  intros Hc Hsb Hids H1 H2 He.
  pose proof (or_cwd_run cmds (extra_args self) w) as Hor.
  rewrite Hids in Hor.
  destruct Hc as [<-|[<-|[]]]; unfold forward_calls in H1;
    destruct (for_in_ok_list_comp _ _ _ H1) as (vs & Hvs & _); simpl start;
    unfold InstallLabExtensionApp_start, LinkLabExtensionApp_start;
    rewrite bind_ok with (1 := Hor), after_nil;
    rewrite bind_ok with (1 := Hvs); rewrite Hsb;
    rewrite try_except_caught with (1 := H2) (2 := He);
    now rewrite after_after.
Qed.

(** C1. For [install] and [link] with building on: when the
    per-identifier calls on the identifiers [ids] of the invocation return,
    [build] raises the error [e], and every rollback call returns, the
    calls made are the per-identifier calls, [build], and then one rollback
    call ([uninstall_extension], [unlink_package]) per identifier, in the
    order of [ids]; the method then raises [e] itself. *)
Theorem build_failure_rolls_back
    (c : subapp) (self : BaseExtensionApp) (w : W) (ids : list string)
    (w1 : W) (t1 : list event) (e : exn) (w2 : W) (t2 : list event)
    (w3 : W) (t3 : list event) :
  In c [InstallLabExtensionApp; LinkLabExtensionApp] ->
  should_build self = true ->
  res (or_cwd cmds (extra_args self) w) = Ok ids ->
  forward_calls cmds c (app_dir self) ids w = Run (Ok tt) w1 t1 ->
  build cmds (app_dir self) (should_clean self) w1 = Run (Raise e) w2 t2 ->
  isinstance_Exception e = true ->
  rollback_calls cmds c (app_dir self) ids w2 = Run (Ok tt) w3 t3 ->
  start cmds c self w = Run (Raise e) w3 (t1 ++ t2 ++ t3)
  /\ calls (t1 ++ t2 ++ t3) =
       map (fun x => forward_call c x (app_dir self)) ids
       ++ Call_build (app_dir self) (should_clean self)
       :: map (fun x => rollback_call c x (app_dir self)) ids
  /\ (forall x, times_called (rollback_call c x (app_dir self))
                            (t1 ++ t2 ++ t3)
                = count_occ string_dec ids x).
Proof.
  intros Hc Hsb Hids H1 H2 He H3.
  assert (Hcalls : calls (t1 ++ t2 ++ t3) =
            map (fun x => forward_call c x (app_dir self)) ids
            ++ Call_build (app_dir self) (should_clean self)
            :: map (fun x => rollback_call c x (app_dir self)) ids).
  { assert (Hnl : c <> ListLabExtensionsApp)
      by (destruct Hc as [<-|[<-|[]]]; discriminate).
    unfold calls. rewrite !map_app. fold (calls t1) (calls t2) (calls t3).
    rewrite forward_calls_ok_calls with (1 := Hnl) (2 := H1).
    rewrite rollback_calls_ok_calls with (1 := Hc) (2 := H3).
    now rewrite (build_raise_log _ _ _ H2). }
  split; [|split; [exact Hcalls|]].
  - rewrite mutating_run_build_failed with (1 := Hc) (2 := Hsb) (3 := Hids)
      (4 := H1) (5 := H2) (6 := He).
    rewrite bind_ok with (1 := H3). unfold raise, after. simpl.
    now rewrite app_nil_r, app_assoc.
  - intros x. unfold times_called. rewrite Hcalls, count_occ_app.
    rewrite count_occ_cons_neq
      by (destruct Hc as [<-|[<-|[]]]; discriminate).
    assert (Hinj : forall y z,
               rollback_call c y (app_dir self)
               = rollback_call c z (app_dir self) -> y = z)
      by (intros y z; destruct Hc as [<-|[<-|[]]]; simpl; congruence).
    rewrite <- (@count_occ_map _ _
                  (fun y => rollback_call c y (app_dir self))
                  string_dec call_eq_dec Hinj x ids).
    replace (count_occ call_eq_dec _ _) with 0; [reflexivity|].
    symmetry. apply count_occ_not_In. rewrite in_map_iff.
    intros (y & Hy & _). destruct Hc as [<-|[<-|[]]]; discriminate.
Qed.

(** C4. For [install] and [link] with building on, after [build] has
    raised the error [e]: when the rollback calls on [l1] return and the
    rollback call on the next identifier [x] raises [e'], the method raises
    [e'] as it is, not [e]; the rollback calls made are those on [l1] and
    on [x], none on the identifiers [l2] that follow. *)
Theorem rollback_failure_replaces_build_error
    (c : subapp) (self : BaseExtensionApp) (w : W)
    (l1 : list string) (x : string) (l2 : list string)
    (w1 : W) (t1 : list event) (e : exn) (w2 : W) (t2 : list event)
    (w3 : W) (t3 : list event) (e' : exn) (w4 : W) (t4 : list event) :
  In c [InstallLabExtensionApp; LinkLabExtensionApp] ->
  should_build self = true ->
  res (or_cwd cmds (extra_args self) w) = Ok (l1 ++ x :: l2) ->
  forward_calls cmds c (app_dir self) (l1 ++ x :: l2) w = Run (Ok tt) w1 t1 ->
  build cmds (app_dir self) (should_clean self) w1 = Run (Raise e) w2 t2 ->
  isinstance_Exception e = true ->
  rollback_calls cmds c (app_dir self) l1 w2 = Run (Ok tt) w3 t3 ->
  rollback_calls cmds c (app_dir self) [x] w3 = Run (Raise e') w4 t4 ->
  start cmds c self w = Run (Raise e') w4 (t1 ++ t2 ++ t3 ++ t4)
  /\ calls (t1 ++ t2 ++ t3 ++ t4) =
       map (fun y => forward_call c y (app_dir self)) (l1 ++ x :: l2)
       ++ Call_build (app_dir self) (should_clean self)
       :: map (fun y => rollback_call c y (app_dir self)) (l1 ++ [x]).
Proof.
  intros Hc Hsb Hids H1 H2 He H3 H4. split.
  - rewrite mutating_run_build_failed with (1 := Hc) (2 := Hsb) (3 := Hids)
      (4 := H1) (5 := H2) (6 := He).
    assert (Hrb : rollback_calls cmds c (app_dir self) (l1 ++ x :: l2) w2
                  = Run (Raise e') w4 (t3 ++ t4)).
    { destruct Hc as [<-|[<-|[]]]; unfold rollback_calls in *;
        rewrite for_in_list_comp; apply bind_raise;
        now apply list_comp_stops with (w1 := w3). }
    rewrite bind_raise with (1 := Hrb). unfold after. simpl.
    now rewrite <- !app_assoc.
  - assert (Hnl : c <> ListLabExtensionsApp)
      by (destruct Hc as [<-|[<-|[]]]; discriminate).
    unfold calls. rewrite !map_app.
    fold (calls t1) (calls t2) (calls t3).
    rewrite forward_calls_ok_calls with (1 := Hnl) (2 := H1).
    rewrite rollback_calls_ok_calls with (1 := Hc) (2 := H3).
    rewrite rollback_calls_single_raise with (1 := Hc) (2 := H4).
    rewrite (build_raise_log _ _ _ H2). simpl.
    now rewrite !map_app.
Qed.

End Rollback.

(** ** Defaults and the entry point *)

Section Defaults.

Variable W : Type.
Variable cmds : Commands W.

Ltac run_open :=
  cbv beta iota zeta delta
    [bind ret raise try_except_Exception build invoke list_comp for_in
     install_extension uninstall_extension link_package unlink_package
     any existsb andb orb].

Ltac run_case :=
  match goal with
  | |- context [cmd_install_extension cmds ?a ?d ?w] =>
      destruct (cmd_install_extension cmds a d w) as [[[]|?] ?]
  | |- context [cmd_link_package cmds ?a ?d ?w] =>
      destruct (cmd_link_package cmds a d w) as [[[]|?] ?]
  | |- context [cmd_uninstall_extension cmds ?a ?d ?w] =>
      destruct (cmd_uninstall_extension cmds a d w) as [[[]|?] ?]
  | |- context [cmd_unlink_package cmds ?a ?d ?w] =>
      destruct (cmd_unlink_package cmds a d w) as [[[]|?] ?]
  | |- context [cmd_build cmds ?d ?c ?w] =>
      destruct (cmd_build cmds d c w) as [[[]|?] ?]
  | |- context [isinstance_Exception ?e] =>
      destruct (isinstance_Exception e)
  end.

(** C6. For [install], [link], [unlink] and [uninstall]: with no
    positional identifier, and [os.getcwd()] giving [d], the method runs
    as it does on the one-element list [[d]]; its per-identifier call is
    made exactly once, on [d]. *)
Theorem empty_list_defaults_to_cwd
    (c : subapp) (self : BaseExtensionApp) (w : W) (d : string) :
  In c [InstallLabExtensionApp; LinkLabExtensionApp;
        UnlinkLabExtensionApp; UninstallLabExtensionApp] ->
  extra_args self = [] ->
  cmd_getcwd cmds w = Ok d ->
  start cmds c self w = start cmds c (with_extra_args [d] self) w
  /\ filter (is_forward c) (calls (log (start cmds c self w))) =
       [forward_call c d (app_dir self)].
Proof.
  intros Hc Hargs Hcwd.
  assert (Heq : start cmds c self w = start cmds c (with_extra_args [d] self) w).
  { destruct Hc as [<-|[<-|[<-|[<-|[]]]]]; simpl start;
      unfold InstallLabExtensionApp_start, LinkLabExtensionApp_start,
        UnlinkLabExtensionApp_start, UninstallLabExtensionApp_start;
      rewrite Hargs; simpl; unfold bind at 1 2, os_getcwd;
      rewrite Hcwd; reflexivity. }
  split; [exact Heq|]. rewrite Heq. clear Heq Hargs Hcwd.
  destruct self as [args dir sb cl].
  destruct Hc as [<-|[<-|[<-|[<-|[]]]]]; simpl start;
    unfold InstallLabExtensionApp_start, LinkLabExtensionApp_start,
      UnlinkLabExtensionApp_start, UninstallLabExtensionApp_start;
    cbn [with_extra_args extra_args app_dir should_build should_clean or_cwd];
    destruct sb; run_open; repeat (run_case; run_open);
    try reflexivity.
Qed.

(** C8. When no subcommand was given, so that the [start] of the parent
    class returns, [LabExtensionApp.start] leaves through [sys.exit] with
    a message: the process prints it and ends with status 1, and the
    message names the seven subcommands. *)
Theorem no_subcommand_exits_nonzero (w w' : W) :
  cmd_JupyterApp_start cmds w = (Ok tt, w') ->
  LabExtensionApp_start cmds w =
    Run (Raise (SystemExit (ExitObj no_subcommand_message))) w' []
  /\ exit_status (ExitObj no_subcommand_message) <> 0%Z
  /\ exit_stderr (ExitObj no_subcommand_message) = Some no_subcommand_message
  /\ keys subcommands =
       ["install"; "uninstall"; "list"; "link"; "unlink"; "enable"; "disable"]
  /\ Forall (fun name => contains name no_subcommand_message = true)
            (keys subcommands).
Proof.
  intros H. repeat split.
  - unfold LabExtensionApp_start, bind, JupyterApp_start. rewrite H.
    reflexivity.
  - discriminate.
  - repeat constructor.
Qed.

End Defaults.

(** ** The theorems at concrete runs *)

(** [install extA extB], [build] fails, both are uninstalled again. *)
Lemma build_failure_rolls_back_witness :
  let self := new_app InstallLabExtensionApp ["extA"; "extB"] in
  let r := start Toy.cmds InstallLabExtensionApp self Toy.failing_build in
  res r = Raise Toy.build_failed
  /\ calls (log r) =
       [ Call_install_extension "extA" ""; Call_install_extension "extB" "";
         Call_build "" false;
         Call_uninstall_extension "extA" "";
         Call_uninstall_extension "extB" "" ]
  /\ times_called (Call_uninstall_extension "extA" "") (log r) = 1
  /\ times_called (Call_uninstall_extension "extB" "") (log r) = 1.
Proof.
  intros self r.
  destruct (@build_failure_rolls_back Toy.lab Toy.cmds
              InstallLabExtensionApp self Toy.failing_build ["extA"; "extB"]
              _ _ _ _ _ _ _
              (or_introl eq_refl) eq_refl eq_refl eq_refl eq_refl eq_refl
              eq_refl) as (Hrun & Hcalls & Honce).
  subst r. rewrite Hrun.
  split; [reflexivity | split; [exact Hcalls | split]].
  - exact (Honce "extA").
  - exact (Honce "extB").
Defined.

(** C2 as stated fails. [unlink pkgA pkgB]: [pkgA] is unlinked and reports
    a change, the call on [pkgB] raises; [build] is on and is not called. *)
Lemma build_iff_changed_fails_when_a_call_raises :
  ~ build_iff_changed Toy.cmds UnlinkLabExtensionApp
      (new_app UnlinkLabExtensionApp ["pkgA"; "pkgB"])
      Toy.one_linked_one_stuck.
Proof.
  unfold build_iff_changed. intros [_ H].
  specialize (H (conj eq_refl eq_refl)). vm_compute in H. discriminate.
Qed.

(** [unlink pkgA pkgB], both linked: both calls return and [build] runs. *)
Lemma build_iff_changed_when_no_call_raised_witness :
  build_iff_changed Toy.cmds UnlinkLabExtensionApp
    (new_app UnlinkLabExtensionApp ["pkgA"; "pkgB"]) Toy.two_linked.
Proof.
  apply build_iff_changed_when_no_call_raised;
    [left; reflexivity | reflexivity].
Defined.

(** [unlink pkgA pkgB pkgC]: the call on [pkgB] raises, [pkgC] is not
    tried. *)
Lemma first_failure_propagates_witness :
  let self := new_app UnlinkLabExtensionApp ["pkgA"; "pkgB"; "pkgC"] in
  let r := start Toy.cmds UnlinkLabExtensionApp self
                 Toy.one_linked_one_stuck in
  res r = Raise (Exception "OSError" "pkgB")
  /\ calls (log r) =
       [ Call_unlink_package "pkgA" ""; Call_unlink_package "pkgB" "" ]
  /\ build_called (log r) = false.
Proof.
  intros self r.
  destruct (@first_failure_propagates Toy.lab Toy.cmds
              UnlinkLabExtensionApp self Toy.one_linked_one_stuck
              ["pkgA"] "pkgB" ["pkgC"] _ _ _ _ _
              (or_introl eq_refl) eq_refl eq_refl eq_refl)
    as (Hrun & Hcalls & Hbuild).
  subst r. rewrite Hrun.
  split; [reflexivity | split; [exact Hcalls | exact Hbuild]].
Defined.

(** [install extA extB extC], [build] fails, uninstalling [extB] raises:
    that error comes out and [extC] stays installed. *)
Lemma rollback_failure_replaces_build_error_witness :
  let self := new_app InstallLabExtensionApp ["extA"; "extB"; "extC"] in
  let r := start Toy.cmds InstallLabExtensionApp self
                 Toy.failing_build_stuck in
  res r = Raise (Exception "OSError" "extB")
  /\ calls (log r) =
       [ Call_install_extension "extA" ""; Call_install_extension "extB" "";
         Call_install_extension "extC" ""; Call_build "" false;
         Call_uninstall_extension "extA" "";
         Call_uninstall_extension "extB" "" ]
  /\ Toy.installed (final r) = ["extC"; "extB"].
Proof.
  intros self r.
  destruct (@rollback_failure_replaces_build_error Toy.lab Toy.cmds
              InstallLabExtensionApp self Toy.failing_build_stuck
              ["extA"] "extB" ["extC"] _ _ _ _ _ _ _ _ _ _
              (or_introl eq_refl) eq_refl eq_refl eq_refl eq_refl eq_refl
              eq_refl eq_refl) as [Hrun Hcalls].
  subst r. rewrite Hrun.
  split; [reflexivity | split; [exact Hcalls | reflexivity]].
Defined.

(** [install --no-build extA] where [build] would fail. *)
Lemma no_build_when_should_build_false_witness :
  build_called
    (log (start Toy.cmds InstallLabExtensionApp
                (apply_flag "no-build"
                   (new_app InstallLabExtensionApp ["extA"]))
                Toy.failing_build)) = false.
Proof.
  apply no_build_when_should_build_false; [left; reflexivity | reflexivity].
Defined.

(** [uninstall] with no identifier, run in [/work]. *)
Lemma empty_list_defaults_to_cwd_witness :
  let self := new_app UninstallLabExtensionApp [] in
  start Toy.cmds UninstallLabExtensionApp self Toy.empty =
    start Toy.cmds UninstallLabExtensionApp (with_extra_args ["/work"] self)
          Toy.empty
  /\ filter (is_forward UninstallLabExtensionApp)
            (calls (log (start Toy.cmds UninstallLabExtensionApp self
                               Toy.empty))) =
       [ Call_uninstall_extension "/work" "" ].
Proof.
  intros self.
  apply (@empty_list_defaults_to_cwd Toy.lab Toy.cmds
           UninstallLabExtensionApp self Toy.empty "/work");
    [right; right; right; left; reflexivity | reflexivity | reflexivity].
Defined.

(** No subcommand on the command line. *)
Lemma no_subcommand_exits_nonzero_witness :
  LabExtensionApp_start Toy.cmds Toy.empty =
    Run (Raise (SystemExit (ExitObj no_subcommand_message))) Toy.empty []
  /\ exit_status (ExitObj no_subcommand_message) = 1%Z.
Proof.
  destruct (@no_subcommand_exits_nonzero Toy.lab Toy.cmds Toy.empty Toy.empty
              eq_refl) as (Hrun & _).
  split; [exact Hrun | reflexivity].
Defined.

(** [unlink pkgA pkgB], both linked: [pkgB] is unlinked although [pkgA]
    already reported a change, and [build] comes last. *)
Lemma every_identifier_is_called_witness :
  log (start Toy.cmds UnlinkLabExtensionApp
             (new_app UnlinkLabExtensionApp ["pkgA"; "pkgB"])
             Toy.two_linked) =
    [ Ev (Call_unlink_package "pkgA" "") (ReturnedBool true);
      Ev (Call_unlink_package "pkgB" "") (ReturnedBool true);
      Ev (Call_build "" false) Returned ]
  /\ calls (log (start Toy.cmds UnlinkLabExtensionApp
                       (new_app UnlinkLabExtensionApp ["pkgA"; "pkgB"])
                       Toy.two_linked)) =
       [ Call_unlink_package "pkgA" ""; Call_unlink_package "pkgB" "";
         Call_build "" false ].
Proof.
  split; [reflexivity|].
  apply (@every_identifier_is_called Toy.lab Toy.cmds UnlinkLabExtensionApp
           (new_app UnlinkLabExtensionApp ["pkgA"; "pkgB"]) Toy.two_linked
           ["pkgA"; "pkgB"]);
    [left; reflexivity | reflexivity | reflexivity].
Defined.

(** [enable] with no identifier. *)
Lemma enable_disable_empty_is_noop_witness :
  EnableLabExtensionsApp_start Toy.cmds
    (new_app EnableLabExtensionsApp []) Toy.empty = Run (Ok tt) Toy.empty []
  /\ DisableLabExtensionsApp_start Toy.cmds
       (new_app DisableLabExtensionsApp []) Toy.empty
     = Run (Ok tt) Toy.empty [].
Proof.
  split.
  - apply (@enable_disable_empty_is_noop Toy.lab Toy.cmds
             (new_app EnableLabExtensionsApp []) Toy.empty eq_refl).
  - apply (@enable_disable_empty_is_noop Toy.lab Toy.cmds
             (new_app DisableLabExtensionsApp []) Toy.empty eq_refl).
Defined.

(** * Further properties of the [start] methods *)

(** ** [install] and [link]: the other ways a run can end *)

Section Mutating.

Variable W : Type.
Variable cmds : Commands W.

Lemma build_ok_log dir clean w w1 t1 :
  build cmds dir clean w = Run (Ok tt) w1 t1 ->
  t1 = [Ev (Call_build dir clean) Returned].
Proof.
  unfold build, invoke. destruct (cmd_build cmds dir clean w) as [[[]|e'] w'];
    intros H; inversion H; reflexivity.
Qed.

(** Once the per-identifier calls have returned, what is left of [install]
    or [link] is the guarded [build]. *)
Lemma mutating_run_forward_ok c self w ids w1 t1 :
  In c [InstallLabExtensionApp; LinkLabExtensionApp] ->
  res (or_cwd cmds (extra_args self) w) = Ok ids ->
  forward_calls cmds c (app_dir self) ids w = Run (Ok tt) w1 t1 ->
  start cmds c self w =
    after t1
      ((if should_build self
        then try_except_Exception
               (build cmds (app_dir self) (should_clean self))
               (fun e => rollback_calls cmds c (app_dir self) ids ;;; raise e)
        else ret tt) w1).
Proof.
  intros Hc Hids H1.
  pose proof (or_cwd_run cmds (extra_args self) w) as Hor.
  rewrite Hids in Hor.
  destruct Hc as [<-|[<-|[]]]; unfold forward_calls in H1;
    destruct (for_in_ok_list_comp _ _ _ H1) as (vs & Hvs & _); simpl start;
    unfold InstallLabExtensionApp_start, LinkLabExtensionApp_start;
    rewrite bind_ok with (1 := Hor), after_nil;
    rewrite bind_ok with (1 := Hvs); reflexivity.
Qed.

(** X1. [install] and [link] with building on: when the per-identifier
    calls return and [build] returns, the method returns; the calls are
    the per-identifier calls in order and then [build], and no rollback
    call is made. *)
Theorem build_success_keeps_everything
    (c : subapp) (self : BaseExtensionApp) (w : W) (ids : list string)
    (w1 : W) (t1 : list event) (w2 : W) (t2 : list event) :
  In c [InstallLabExtensionApp; LinkLabExtensionApp] ->
  should_build self = true ->
  res (or_cwd cmds (extra_args self) w) = Ok ids ->
  forward_calls cmds c (app_dir self) ids w = Run (Ok tt) w1 t1 ->
  build cmds (app_dir self) (should_clean self) w1 = Run (Ok tt) w2 t2 ->
  start cmds c self w = Run (Ok tt) w2 (t1 ++ t2)
  /\ calls (t1 ++ t2) =
       map (fun x => forward_call c x (app_dir self)) ids
       ++ [Call_build (app_dir self) (should_clean self)]
  /\ all_calls (fun k => negb (is_rollback c k)) (t1 ++ t2) = true.
Proof.
  intros Hc Hsb Hids H1 H2.
  assert (Hcalls : calls (t1 ++ t2) =
            map (fun x => forward_call c x (app_dir self)) ids
            ++ [Call_build (app_dir self) (should_clean self)]).
  { assert (Hnl : c <> ListLabExtensionsApp)
      by (destruct Hc as [<-|[<-|[]]]; discriminate).
    unfold calls. rewrite map_app. fold (calls t1) (calls t2).
    rewrite forward_calls_ok_calls with (1 := Hnl) (2 := H1).
    now rewrite (build_ok_log _ _ _ H2). }
  split; [|split; [exact Hcalls|]].
  - rewrite mutating_run_forward_ok with (1 := Hc) (2 := Hids) (3 := H1).
    rewrite Hsb, try_except_ok with (1 := H2). reflexivity.
  - unfold all_calls. rewrite Hcalls, forallb_app. simpl.
    rewrite andb_true_iff. split.
    + apply forallb_forall. intros k Hk. apply in_map_iff in Hk.
      destruct Hk as (y & <- & _).
      destruct Hc as [<-|[<-|[]]]; reflexivity.
    + destruct Hc as [<-|[<-|[]]]; reflexivity.
Qed.

(** X2. [install] and [link]: when the per-identifier calls on [l1]
    return and the one on the next identifier [x] raises [e], the method
    raises [e]; the identifiers [l2] after [x] are not tried, [build] is
    not called, and no rollback call is made for the identifiers of [l1]
    that went through. *)
Theorem failed_install_is_not_rolled_back
    (c : subapp) (self : BaseExtensionApp) (w : W)
    (l1 : list string) (x : string) (l2 : list string)
    (w1 : W) (t1 : list event) (e : exn) (w2 : W) (t2 : list event) :
  In c [InstallLabExtensionApp; LinkLabExtensionApp] ->
  res (or_cwd cmds (extra_args self) w) = Ok (l1 ++ x :: l2) ->
  forward_calls cmds c (app_dir self) l1 w = Run (Ok tt) w1 t1 ->
  forward_calls cmds c (app_dir self) [x] w1 = Run (Raise e) w2 t2 ->
  start cmds c self w = Run (Raise e) w2 (t1 ++ t2)
  /\ calls (t1 ++ t2) =
       map (fun y => forward_call c y (app_dir self)) (l1 ++ [x])
  /\ build_called (t1 ++ t2) = false
  /\ all_calls (fun k => negb (is_rollback c k)) (t1 ++ t2) = true.
Proof.
  intros Hc Hids H1 H2.
  assert (Hnl : c <> ListLabExtensionsApp)
    by (destruct Hc as [<-|[<-|[]]]; discriminate).
  assert (Hcalls : calls (t1 ++ t2) =
            map (fun y => forward_call c y (app_dir self)) (l1 ++ [x])).
  { unfold calls. rewrite !map_app.
    fold (calls t1). rewrite forward_calls_ok_calls with (1 := Hnl) (2 := H1).
    now rewrite forward_calls_single_raise with (1 := Hnl) (2 := H2). }
  split; [|split; [exact Hcalls|split]].
  - pose proof (or_cwd_run cmds (extra_args self) w) as Hor.
    rewrite Hids in Hor.
    destruct Hc as [<-|[<-|[]]]; unfold forward_calls in H1, H2;
      pose proof (@list_comp_stops _ _ _ _ _ l2 _ _ _ _ _ _ H1 H2) as Hstop;
      simpl start;
      unfold InstallLabExtensionApp_start, LinkLabExtensionApp_start;
      rewrite bind_ok with (1 := Hor), after_nil;
      now apply bind_raise.
  - unfold build_called. rewrite Hcalls. apply no_build_map.
    intros y. destruct Hc as [<-|[<-|[]]]; reflexivity.
  - unfold all_calls. rewrite Hcalls. apply forallb_forall.
    intros k Hk. apply in_map_iff in Hk. destruct Hk as (y & <- & _).
    destruct Hc as [<-|[<-|[]]]; reflexivity.
Qed.

(** X3. [install] and [link] with building on: when [build] raises
    something that is not an [Exception] ([KeyboardInterrupt],
    [SystemExit]), the handler does not run: it leaves the method as it
    is and no rollback call is made. *)
Theorem interrupt_during_build_skips_rollback
    (c : subapp) (self : BaseExtensionApp) (w : W) (ids : list string)
    (w1 : W) (t1 : list event) (e : exn) (w2 : W) (t2 : list event) :
  In c [InstallLabExtensionApp; LinkLabExtensionApp] ->
  should_build self = true ->
  res (or_cwd cmds (extra_args self) w) = Ok ids ->
  forward_calls cmds c (app_dir self) ids w = Run (Ok tt) w1 t1 ->
  build cmds (app_dir self) (should_clean self) w1 = Run (Raise e) w2 t2 ->
  isinstance_Exception e = false ->
  start cmds c self w = Run (Raise e) w2 (t1 ++ t2)
  /\ calls (t1 ++ t2) =
       map (fun x => forward_call c x (app_dir self)) ids
       ++ [Call_build (app_dir self) (should_clean self)].
Proof.
  intros Hc Hsb Hids H1 H2 He. split.
  - rewrite mutating_run_forward_ok with (1 := Hc) (2 := Hids) (3 := H1).
    rewrite Hsb, try_except_passes with (1 := H2) (2 := He). reflexivity.
  - assert (Hnl : c <> ListLabExtensionsApp)
      by (destruct Hc as [<-|[<-|[]]]; discriminate).
    unfold calls. rewrite map_app. fold (calls t1) (calls t2).
    rewrite forward_calls_ok_calls with (1 := Hnl) (2 := H1).
    now rewrite (build_raise_log _ _ _ _ H2).
Qed.

End Mutating.

(** ** A property of every call, through the combinators *)

Section AllCalls.

Context {W : Type}.
Variable p : call -> bool.

Lemma all_calls_app t1 t2 :
  all_calls p (t1 ++ t2) = all_calls p t1 && all_calls p t2.
Proof. unfold all_calls, calls. now rewrite map_app, forallb_app. Qed.

Lemma all_calls_bind {A B} (m : M W A) (k : A -> M W B) w :
  all_calls p (log (m w)) = true ->
  (forall a w1, all_calls p (log (k a w1)) = true) ->
  all_calls p (log (bind m k w)) = true.
Proof.
  intros Hm Hk. unfold bind.
  destruct (m w) as [[a|e] w1 t1]; simpl in *; [|exact Hm].
  specialize (Hk a w1). destruct (k a w1) as [r w2 t2]; simpl in *.
  now rewrite all_calls_app, Hm, Hk.
Qed.

Lemma all_calls_try {A} (body : M W A) (h : exn -> M W A) w :
  all_calls p (log (body w)) = true ->
  (forall e w1, all_calls p (log (h e w1)) = true) ->
  all_calls p (log (try_except_Exception body h w)) = true.
Proof.
  intros Hb Hh. unfold try_except_Exception.
  destruct (body w) as [[a|e] w1 t1]; simpl in *; [exact Hb|].
  destruct (isinstance_Exception e); [|exact Hb].
  specialize (Hh e w1). destruct (h e w1) as [r w2 t2]; simpl in *.
  now rewrite all_calls_app, Hb, Hh.
Qed.

Lemma all_calls_invoke {A} c (obs : A -> outcome)
    (g : W -> result A * W) (w : W) :
  p c = true -> all_calls p (log (invoke c obs g w)) = true.
Proof.
  intros H. unfold invoke. destruct (g w) as [r w1]. simpl.
  unfold all_calls. simpl. now rewrite H.
Qed.

Lemma all_calls_list_comp {A} mk (obs : A -> outcome)
    (g : string -> W -> result A * W) xs (w : W) :
  (forall x, p (mk x) = true) ->
  all_calls p (log (list_comp (fun x => invoke (mk x) obs (g x)) xs w))
  = true.
Proof.
  intros H. revert w. induction xs as [|x xs IH]; intros w; [reflexivity|].
  simpl. apply all_calls_bind; [now apply all_calls_invoke|].
  intros a w1. apply all_calls_bind; [apply IH | reflexivity].
Qed.

Lemma all_calls_for_in {A} mk (obs : A -> outcome)
    (g : string -> W -> result A * W) xs (w : W) :
  (forall x, p (mk x) = true) ->
  all_calls p (log (for_in xs (fun x => invoke (mk x) obs (g x)) w)) = true.
Proof.
  intros H. revert w. induction xs as [|x xs IH]; intros w; [reflexivity|].
  simpl. apply all_calls_bind; [now apply all_calls_invoke|].
  intros a w1. apply IH.
Qed.

Lemma all_calls_or_cwd (cmds : Commands W) args w :
  all_calls p (log (or_cwd cmds args w)) = true.
Proof. now rewrite or_cwd_run. Qed.

End AllCalls.

(** Splits a goal about every call of a [start] method along the method. *)
Ltac every_call :=
  repeat first
    [ apply all_calls_or_cwd
    | apply all_calls_bind; [|intros]
    | apply all_calls_try; [|intros]
    | match goal with
      | |- context [if ?b then _ else _] => destruct b
      end
    | unfold_calls; unfold build, list_extensions;
      first [ eapply all_calls_list_comp; intros
            | eapply all_calls_for_in; intros
            | eapply all_calls_invoke ] ].

Section EveryRun.

Variable W : Type.
Variable cmds : Commands W.

(** X4. In every run of every subcommand method, each collaborator call
    is given [self.app_dir] as its application directory, and a [build]
    call is given [self.should_clean] as [clean_staging]. *)
Theorem every_call_is_configured
    (c : subapp) (self : BaseExtensionApp) (w : W) :
  all_calls (configured (app_dir self) (should_clean self))
            (log (start cmds c self w)) = true.
Proof.
  destruct c; simpl start;
    unfold InstallLabExtensionApp_start, LinkLabExtensionApp_start,
      UnlinkLabExtensionApp_start, UninstallLabExtensionApp_start,
      ListLabExtensionsApp_start, EnableLabExtensionsApp_start,
      DisableLabExtensionsApp_start;
    every_call;
    try reflexivity;
    unfold configured; simpl;
    rewrite ?String.eqb_refl, ?Bool.eqb_reflx; reflexivity.
Qed.

End EveryRun.

(** ** Counting the [build] calls *)

Section BuildCount.

Context {W : Type}.

Lemma build_count_app t1 t2 :
  build_count (t1 ++ t2) = build_count t1 + build_count t2.
Proof.
  unfold build_count, calls. now rewrite map_app, filter_app, length_app.
Qed.

Lemma build_count_not_called tr :
  build_called tr = false -> build_count tr = 0.
Proof.
  unfold build_called, build_count.
  induction (calls tr) as [|k l IH]; simpl; [reflexivity|].
  destruct (is_build k); simpl; [discriminate | exact IH].
Qed.

Lemma build_count_bind {A B} (m : M W A) (k : A -> M W B) w :
  build_called (log (m w)) = false ->
  (forall a w1, build_count (log (k a w1)) <= 1) ->
  build_count (log (bind m k w)) <= 1.
Proof.
  intros Hm Hk. apply build_count_not_called in Hm. unfold bind.
  destruct (m w) as [[a|e] w1 t1]; simpl in *; [|lia].
  specialize (Hk a w1). destruct (k a w1) as [r w2 t2]; simpl in *.
  rewrite build_count_app. lia.
Qed.

Lemma build_count_try {A} (body : M W A) (h : exn -> M W A) w :
  build_count (log (body w)) <= 1 ->
  (forall e w1, build_called (log (h e w1)) = false) ->
  build_count (log (try_except_Exception body h w)) <= 1.
Proof.
  intros Hb Hh. unfold try_except_Exception.
  destruct (body w) as [[a|e] w1 t1]; simpl in *; [exact Hb|].
  destruct (isinstance_Exception e); [|exact Hb].
  specialize (Hh e w1). apply build_count_not_called in Hh.
  destruct (h e w1) as [r w2 t2]; simpl in *.
  rewrite build_count_app. lia.
Qed.

Lemma build_count_build (cmds : Commands W) dir clean w :
  build_count (log (build cmds dir clean w)) = 1.
Proof.
  unfold build, invoke. now destruct (cmd_build cmds dir clean w).
Qed.

End BuildCount.

Section AtMostOnce.

Variable W : Type.
Variable cmds : Commands W.

(** X5. No run of a subcommand method calls [build] more than once,
    whatever the collaborators do. *)
Theorem build_called_at_most_once
    (c : subapp) (self : BaseExtensionApp) (w : W) :
  build_count (log (start cmds c self w)) <= 1.
Proof.
  destruct c; simpl start.
  - unfold InstallLabExtensionApp_start.
    apply build_count_bind; [apply no_build_or_cwd | intros ids w1].
    apply build_count_bind; [loop_no_build | intros _ w2].
    destruct (should_build self); [|change (0 <= 1); lia].
    apply build_count_try; [rewrite build_count_build; lia | intros e w3].
    apply no_build_bind; [loop_no_build | reflexivity].
  - unfold UninstallLabExtensionApp_start.
    apply build_count_bind; [apply no_build_or_cwd | intros ids w1].
    apply build_count_bind.
    + apply no_build_bind; [loop_no_build | reflexivity].
    + intros ans w2. destruct (ans && should_build self); [|change (0 <= 1); lia].
      rewrite build_count_build. lia.
  - unfold ListLabExtensionsApp_start, list_extensions, invoke.
    destruct (cmd_list_extensions cmds (app_dir self) w).
    unfold build_count. simpl. lia.
  - unfold LinkLabExtensionApp_start.
    apply build_count_bind; [apply no_build_or_cwd | intros ids w1].
    apply build_count_bind; [loop_no_build | intros _ w2].
    destruct (should_build self); [|change (0 <= 1); lia].
    apply build_count_try; [rewrite build_count_build; lia | intros e w3].
    apply no_build_bind; [loop_no_build | reflexivity].
  - unfold UnlinkLabExtensionApp_start.
    apply build_count_bind; [apply no_build_or_cwd | intros ids w1].
    apply build_count_bind.
    + apply no_build_bind; [loop_no_build | reflexivity].
    + intros ans w2. destruct (ans && should_build self); [|change (0 <= 1); lia].
      rewrite build_count_build. lia.
  - rewrite build_count_not_called; [lia|].
    unfold EnableLabExtensionsApp_start.
    apply no_build_bind; [loop_no_build | reflexivity].
  - rewrite build_count_not_called; [lia|].
    unfold DisableLabExtensionsApp_start.
    apply no_build_bind; [loop_no_build | reflexivity].
Qed.

End AtMostOnce.

(** ** The order of the calls *)

Section Order.

Context {W : Type}.

Lemma bind_assoc {A B C} (m : M W A) (f : A -> M W B) (g : B -> M W C) w :
  bind (bind m f) g w = bind m (fun x => bind (f x) g) w.
Proof.
  unfold bind. destruct (m w) as [[a|e] w1 t1]; [|reflexivity].
  destruct (f a w1) as [[b|e] w2 t2]; [|reflexivity].
  destruct (g b w2) as [r w3 t3]. now rewrite app_assoc.
Qed.

Lemma firstn_snoc {A} (l1 : list A) x l2 :
  firstn (S (List.length l1)) (l1 ++ x :: l2) = l1 ++ [x].
Proof.
  induction l1 as [|a l1 IH]; [reflexivity|].
  change (a :: firstn (S (List.length l1)) (l1 ++ x :: l2) = a :: (l1 ++ [x])).
  now rewrite IH.
Qed.

(** A comprehension over the identifiers followed by anything else: the
    calls are those on a prefix of the identifiers, then the calls of the
    rest, which runs only when the prefix is the whole list. *)
Lemma comp_then {A B} (mk : string -> call) (obs : A -> outcome)
    (g : string -> W -> result A * W) (k : list A -> M W B)
    (q : call -> bool) (ids : list string) (w : W) :
  (forall vs w1, all_calls q (log (k vs w1)) = true) ->
  exists n tail,
    n <= List.length ids
    /\ calls (log (bind (list_comp (fun x => invoke (mk x) obs (g x)) ids)
                        k w))
       = map mk (firstn n ids) ++ tail
    /\ forallb q tail = true
    /\ (tail <> [] -> n = List.length ids).
Proof.
  intros Hk. unfold bind.
  destruct (list_comp_shape mk obs g ids w)
    as [vs w1 Hlen|l1 x l2 vs e w1 Hxs Hlen].
  - specialize (Hk vs w1). destruct (k vs w1) as [r w2 t2]. simpl in *.
    exists (List.length ids), (calls t2). repeat split; trivial.
    unfold calls at 1. rewrite map_app.
    fold (calls (returned_events mk obs ids vs)) (calls t2).
    now rewrite returned_events_calls, firstn_all.
  - exists (S (List.length l1)), []. simpl log. subst ids.
    repeat split; trivial.
    + rewrite length_app. simpl. lia.
    + unfold calls. rewrite map_app.
      fold (calls (returned_events mk obs l1 vs)).
      rewrite returned_events_calls, firstn_snoc, map_app, app_nil_r by trivial.
      reflexivity.
    + intros H. now contradiction H.
Qed.

End Order.

Section OrderOfCalls.

Variable W : Type.
Variable cmds : Commands W.

(** X7. In every run of [install], [link], [unlink], [uninstall],
    [enable] or [disable], the per-identifier calls are made on a prefix of
    the identifier list, in the order of the list and once per position;
    every other call ([build], rollback) comes after them, and only when
    the call was made for the whole list. *)
Theorem identifiers_in_argument_order
    (c : subapp) (self : BaseExtensionApp) (w : W) (ids : list string) :
  c <> ListLabExtensionsApp ->
  res (identifiers cmds c self w) = Ok ids ->
  exists n tail,
    n <= List.length ids
    /\ calls (log (start cmds c self w)) =
         map (fun x => forward_call c x (app_dir self)) (firstn n ids) ++ tail
    /\ forallb (fun k => negb (is_forward c k)) tail = true
    /\ (tail <> [] -> n = List.length ids).
Proof.
  intros Hc Hids.
  pose proof (identifiers_run cmds c self w) as Hor. rewrite Hids in Hor.
  destruct c; try congruence; unfold identifiers in Hor; simpl start;
    cbn [forward_call];
    unfold InstallLabExtensionApp_start, LinkLabExtensionApp_start,
      UnlinkLabExtensionApp_start, UninstallLabExtensionApp_start,
      EnableLabExtensionsApp_start, DisableLabExtensionsApp_start.
  - rewrite bind_ok with (1 := Hor), after_nil. unfold_calls.
    eapply comp_then. intros vs w1. every_call; reflexivity.
  - rewrite bind_ok with (1 := Hor), after_nil, bind_assoc. unfold_calls.
    eapply comp_then. intros vs w1. every_call; reflexivity.
  - rewrite bind_ok with (1 := Hor), after_nil. unfold_calls.
    eapply comp_then. intros vs w1. every_call; reflexivity.
  - rewrite bind_ok with (1 := Hor), after_nil, bind_assoc. unfold_calls.
    eapply comp_then. intros vs w1. every_call; reflexivity.
  - inversion Hor as [Hargs]. rewrite Hargs. unfold_calls.
    eapply comp_then. intros vs w1. reflexivity.
  - inversion Hor as [Hargs]. rewrite Hargs. unfold_calls.
    eapply comp_then. intros vs w1. reflexivity.
Qed.

End OrderOfCalls.

(** ** When rollback calls are made *)

Section RollbackOnly.

Variable W : Type.
Variable cmds : Commands W.

Lemma forward_calls_all (p : call -> bool) c dir ids w :
  (forall x, p (forward_call c x dir) = true) ->
  all_calls p (log (forward_calls cmds c dir ids w)) = true.
Proof.
  intros H. destruct c; simpl forward_calls; try reflexivity;
    unfold_calls; eapply all_calls_for_in; intros y; exact (H y).
Qed.

Lemma mutating_run_forward_raise c self w ids e w1 t1 :
  In c [InstallLabExtensionApp; LinkLabExtensionApp] ->
  res (or_cwd cmds (extra_args self) w) = Ok ids ->
  forward_calls cmds c (app_dir self) ids w = Run (Raise e) w1 t1 ->
  start cmds c self w = Run (Raise e) w1 t1.
Proof.
  intros Hc Hids H1.
  pose proof (or_cwd_run cmds (extra_args self) w) as Hor.
  rewrite Hids in Hor.
  destruct Hc as [<-|[<-|[]]]; unfold forward_calls in H1;
    apply for_in_raise_list_comp in H1; simpl start;
    unfold InstallLabExtensionApp_start, LinkLabExtensionApp_start;
    rewrite bind_ok with (1 := Hor), after_nil;
    now apply bind_raise.
Qed.

(** X6. [install] and [link] make a rollback call ([uninstall_extension],
    [unlink_package]) only in a run where building is on and the [build]
    call raised an [Exception]. *)
Theorem rollback_only_after_failed_build
    (c : subapp) (self : BaseExtensionApp) (w : W) :
  In c [InstallLabExtensionApp; LinkLabExtensionApp] ->
  all_calls (fun k => negb (is_rollback c k)) (log (start cmds c self w))
  = false ->
  should_build self = true
  /\ exists e,
       In (Ev (Call_build (app_dir self) (should_clean self)) (Raised e))
          (log (start cmds c self w))
       /\ isinstance_Exception e = true.
Proof.
  intros Hc Hrb.
  assert (Hfw : forall ids w0,
             all_calls (fun k => negb (is_rollback c k))
               (log (forward_calls cmds c (app_dir self) ids w0)) = true).
  { intros ids w0. apply forward_calls_all. intros x.
    destruct Hc as [<-|[<-|[]]]; reflexivity. }
  assert (Hcb : is_rollback c (Call_build (app_dir self) (should_clean self))
                = false) by (destruct Hc as [<-|[<-|[]]]; reflexivity).
  destruct (res (or_cwd cmds (extra_args self) w)) as [ids|e0] eqn:Hids.
  - specialize (Hfw ids w).
    destruct (forward_calls cmds c (app_dir self) ids w)
      as [[[]|e1] w1 t1] eqn:H1; simpl in Hfw.
    + rewrite mutating_run_forward_ok with (1 := Hc) (2 := Hids) (3 := H1)
        in Hrb |- *.
      destruct (should_build self).
      * split; [reflexivity|].
        destruct (build cmds (app_dir self) (should_clean self) w1)
          as [[[]|e] w2 t2] eqn:H2.
        -- rewrite try_except_ok with (1 := H2) in Hrb. simpl in Hrb.
           rewrite (build_ok_log _ _ _ _ H2), all_calls_app, Hfw in Hrb.
           unfold all_calls in Hrb. simpl in Hrb. rewrite Hcb in Hrb.
           discriminate.
        -- destruct (isinstance_Exception e) eqn:He.
           ++ exists e. split; [|exact He].
              rewrite try_except_caught with (1 := H2) (2 := He).
              unfold after. simpl log. rewrite (build_raise_log _ _ _ _ H2).
              apply in_or_app. right. simpl. now left.
           ++ rewrite try_except_passes with (1 := H2) (2 := He) in Hrb.
              simpl in Hrb.
              rewrite (build_raise_log _ _ _ _ H2), all_calls_app, Hfw in Hrb.
              unfold all_calls in Hrb. simpl in Hrb. rewrite Hcb in Hrb.
              discriminate.
      * simpl in Hrb. rewrite app_nil_r, Hfw in Hrb. discriminate.
    + rewrite mutating_run_forward_raise with (1 := Hc) (2 := Hids) (3 := H1)
        in Hrb.
      simpl in Hrb. rewrite Hfw in Hrb. discriminate.
  - rewrite (@start_without_cwd _ cmds c self w e0) in Hrb.
    + discriminate.
    + destruct Hc as [<-|[<-|[]]]; simpl; auto.
    + exact Hids.
Qed.

End RollbackOnly.

(** ** Runs in which no per-identifier call raises *)

Section NoCallRaises.

Variable W : Type.
Variable cmds : Commands W.

(** X8. [enable] and [disable]: in a run where no call raised, the method
    returned, and the call was made for every identifier of [extra_args],
    once each and in order. *)
Theorem enable_disable_call_every_identifier
    (c : subapp) (self : BaseExtensionApp) (w : W) :
  In c [EnableLabExtensionsApp; DisableLabExtensionsApp] ->
  per_identifier_raised (log (start cmds c self w)) = false ->
  res (start cmds c self w) = Ok tt
  /\ calls (log (start cmds c self w)) =
       map (fun x => forward_call c x (app_dir self)) (extra_args self).
Proof.
  intros Hc Hnr.
  destruct Hc as [<-|[<-|[]]]; simpl start in *; cbn [forward_call];
    unfold EnableLabExtensionsApp_start, DisableLabExtensionsApp_start in *;
    unfold_calls; unfold_calls_in Hnr.
  - pose proof (list_comp_shape
                  (fun x => Call_enable_extension x (app_dir self))
                  (fun _ : unit => Returned)
                  (fun x => cmd_enable_extension cmds x (app_dir self))
                  (extra_args self) w) as S.
    simpl in S. unfold bind in *.
    inversion S as [vs w1 Hlen Heq|l1 x l2 vs e w1 Hxs Hlen Heq];
      rewrite <- Heq in *; simpl in *.
    + split; [reflexivity|]. rewrite app_nil_r.
      now apply returned_events_calls.
    + unfold per_identifier_raised in Hnr. rewrite existsb_app in Hnr.
      simpl in Hnr. rewrite orb_true_r in Hnr. discriminate.
  - pose proof (list_comp_shape
                  (fun x => Call_disable_extension x (app_dir self))
                  (fun _ : unit => Returned)
                  (fun x => cmd_disable_extension cmds x (app_dir self))
                  (extra_args self) w) as S.
    simpl in S. unfold bind in *.
    inversion S as [vs w1 Hlen Heq|l1 x l2 vs e w1 Hxs Hlen Heq];
      rewrite <- Heq in *; simpl in *.
    + split; [reflexivity|]. rewrite app_nil_r.
      now apply returned_events_calls.
    + unfold per_identifier_raised in Hnr. rewrite existsb_app in Hnr.
      simpl in Hnr. rewrite orb_true_r in Hnr. discriminate.
Qed.


End NoCallRaises.

(** ** The working directory, the flags and the entry point *)

Section Surroundings.

Variable W : Type.
Variable cmds : Commands W.

(** X10. [LabExtensionApp.start] never returns normally and calls no
    collaborator itself: an exception of the parent [start] (such as
    [NoStart] after a subcommand ran) leaves it unchanged, without
    reaching [sys.exit]; otherwise it leaves through [sys.exit]. *)
Theorem entry_point_never_returns (w : W) :
  res (LabExtensionApp_start cmds w) <> Ok tt
  /\ log (LabExtensionApp_start cmds w) = []
  /\ (forall e w',
        cmd_JupyterApp_start cmds w = (Raise e, w') ->
        LabExtensionApp_start cmds w = Run (Raise e) w' []).
Proof.
  unfold LabExtensionApp_start, bind, JupyterApp_start, sys_exit, raise.
  destruct (cmd_JupyterApp_start cmds w) as [[[]|e0] w0]; simpl.
  - repeat split; [discriminate | intros e w' H; discriminate].
  - repeat split; [discriminate|]. intros e w' H. now inversion H.
Qed.

(** X11. [install], [link], [unlink] and [uninstall] with no identifier:
    when [os.getcwd()] raises, that error leaves the method before any
    collaborator call, and the world is as it was. *)
Theorem missing_cwd_stops_before_any_call
    (c : subapp) (self : BaseExtensionApp) (w : W) (e : exn) :
  In c [InstallLabExtensionApp; LinkLabExtensionApp;
        UnlinkLabExtensionApp; UninstallLabExtensionApp] ->
  extra_args self = [] ->
  cmd_getcwd cmds w = Raise e ->
  start cmds c self w = Run (Raise e) w [].
Proof.
  intros Hc Hargs Hcwd.
  destruct Hc as [<-|[<-|[<-|[<-|[]]]]]; simpl start;
    unfold InstallLabExtensionApp_start, LinkLabExtensionApp_start,
      UnlinkLabExtensionApp_start, UninstallLabExtensionApp_start;
    rewrite Hargs; simpl; unfold bind at 1 2, os_getcwd;
    rewrite Hcwd; reflexivity.
Qed.

(** X12. With at least one identifier on the command line, no subcommand
    method consults [os.getcwd()]: the run is the same whatever it would
    give. *)
Theorem cwd_is_consulted_only_without_identifiers
    (c : subapp) (self : BaseExtensionApp) (w : W)
    (g : W -> result string) :
  extra_args self <> [] ->
  start (with_getcwd g cmds) c self w = start cmds c self w.
Proof.
  intros Hargs. destruct self as [[|a args] dir sb cl]; [now contradiction Hargs|].
  destruct c; reflexivity.
Qed.

(** X13. [list] makes exactly one call, [list_extensions] on
    [self.app_dir], and ends as that call ends; the positional arguments,
    [should_build], [should_clean] and the working directory play no part,
    and nothing is built. *)
Theorem list_calls_list_extensions_only
    (self : BaseExtensionApp) (w : W) :
  calls (log (ListLabExtensionsApp_start cmds self w)) =
    [Call_list_extensions (app_dir self)]
  /\ res (ListLabExtensionsApp_start cmds self w) =
       fst (cmd_list_extensions cmds (app_dir self) w)
  /\ final (ListLabExtensionsApp_start cmds self w) =
       snd (cmd_list_extensions cmds (app_dir self) w)
  /\ (forall args sb cl g,
        ListLabExtensionsApp_start (with_getcwd g cmds)
          {| extra_args := args; app_dir := app_dir self;
             should_build := sb; should_clean := cl |} w
        = ListLabExtensionsApp_start cmds self w).
Proof.
  unfold ListLabExtensionsApp_start, list_extensions, invoke. simpl.
  destruct (cmd_list_extensions cmds (app_dir self) w) as [r w1].
  repeat split.
Qed.

(** X14. The flags [--no-build] and [--clean] are accepted by [list],
    [enable] and [disable] like by the other subcommands, and change
    nothing in what these three do. *)
Theorem flags_do_not_change_list_enable_disable
    (c : subapp) (self : BaseExtensionApp) (w : W) (flag : string) :
  In c [ListLabExtensionsApp; EnableLabExtensionsApp;
        DisableLabExtensionsApp] ->
  In flag (keys flags) ->
  start cmds c (apply_flag flag self) w = start cmds c self w.
Proof.
  intros Hc [<-|[<-|[]]]; destruct Hc as [<-|[<-|[<-|[]]]]; reflexivity.
Qed.

End Surroundings.

(** ** [sorted] over the names of the subcommands *)

Lemma compare_not_gt_trans (a b c : string) :
  String.compare a b <> Gt -> String.compare b c <> Gt ->
  String.compare a c <> Gt.
Proof.
  revert b c. induction a as [|x a IH]; intros [|y b] [|z c]; simpl;
    try congruence.
  unfold Ascii.compare.
  destruct (N.compare_spec (Ascii.N_of_ascii x) (Ascii.N_of_ascii y)),
           (N.compare_spec (Ascii.N_of_ascii y) (Ascii.N_of_ascii z)),
           (N.compare_spec (Ascii.N_of_ascii x) (Ascii.N_of_ascii z));
    try congruence; try lia; eauto.
Qed.

Lemma string_le_trans a b c : string_le a b -> string_le b c -> string_le a c.
Proof.
  unfold string_le, String.leb. intros H1 H2.
  pose proof (@compare_not_gt_trans a b c) as H.
  destruct (String.compare a b), (String.compare b c),
           (String.compare a c); try discriminate; try reflexivity;
    exfalso; apply H; congruence.
Qed.

Lemma insert_sorted_perm x l : Permutation (x :: l) (insert_sorted x l).
Proof.
  induction l as [|y l IH]; simpl; [reflexivity|].
  destruct (String.leb x y); [reflexivity|].
  rewrite perm_swap. now apply perm_skip.
Qed.

Lemma insert_sorted_sorted x l :
  StronglySorted string_le l -> StronglySorted string_le (insert_sorted x l).
Proof.
  induction l as [|y l IH]; intros Hs; simpl.
  - constructor; constructor.
  - apply StronglySorted_inv in Hs. destruct Hs as [Hs Hy].
    destruct (String.leb x y) eqn:Hxy.
    + constructor; [now constructor|]. constructor; [exact Hxy|].
      eapply Forall_impl; [|exact Hy]. intros z Hz.
      now apply string_le_trans with y.
    + constructor; [now apply IH|].
      assert (Hyx : string_le y x).
      { destruct (String.leb_total x y) as [H|H]; [congruence | exact H]. }
      eapply Permutation_Forall; [apply insert_sorted_perm|].
      now constructor.
Qed.

Lemma sorted_perm l : Permutation l (sorted l).
Proof.
  induction l as [|x l IH]; simpl; [reflexivity|].
  rewrite <- insert_sorted_perm. now apply perm_skip.
Qed.

Lemma sorted_sorted l : StronglySorted string_le (sorted l).
Proof.
  induction l as [|x l IH]; simpl; [constructor|].
  now apply insert_sorted_sorted.
Qed.

Lemma sorted_unique l1 l2 :
  StronglySorted string_le l1 -> StronglySorted string_le l2 ->
  Permutation l1 l2 -> l1 = l2.
Proof.
  revert l2. induction l1 as [|a l1 IH]; intros l2 H1 H2 Hp.
  - now apply Permutation_nil in Hp.
  - destruct l2 as [|b l2].
    + apply Permutation_sym, Permutation_nil in Hp. discriminate.
    + apply StronglySorted_inv in H1. destruct H1 as [H1 Ha].
      apply StronglySorted_inv in H2. destruct H2 as [H2 Hb].
      assert (Hab : a = b).
      { assert (Ia : In a (b :: l2))
          by (eapply Permutation_in; [exact Hp | now left]).
        assert (Ib : In b (a :: l1))
          by (eapply Permutation_in;
              [apply Permutation_sym; exact Hp | now left]).
        destruct Ia as [->|Ia]; [reflexivity|].
        destruct Ib as [->|Ib]; [reflexivity|].
        rewrite Forall_forall in Ha, Hb.
        apply String.leb_antisym; [now apply Ha | now apply Hb]. }
      subst b. f_equal. apply IH; trivial.
      now apply Permutation_cons_inv in Hp.
Qed.

(** X15. The names [LabExtensionApp.start] puts in its message are the
    keys of [subcommands] in ascending order, each once; listing the
    entries of the table in another order gives the same names in the same
    order. *)
Theorem sorted_names_ignore_table_order
    (d : list (string * (subapp * string))) :
  Permutation d subcommands ->
  sorted (keys d) = sorted (keys subcommands)
  /\ StronglySorted string_le (sorted (keys d))
  /\ Permutation (keys subcommands) (sorted (keys d)).
Proof.
  intros Hp.
  assert (Hk : Permutation (keys d) (keys subcommands))
    by (unfold keys; now apply Permutation_map).
  split; [|split].
  - apply sorted_unique; try apply sorted_sorted.
    rewrite <- !sorted_perm. exact Hk.
  - apply sorted_sorted.
  - rewrite <- sorted_perm. now apply Permutation_sym.
Qed.

(** ** What [--no-build] takes away *)

Section Deferring.

Variable W : Type.
Variable cmds : Commands W.

Lemma bind_ret {A B} (a : A) (k : A -> M W B) w : bind (ret a) k w = k a w.
Proof. unfold bind, ret. now destruct (k a w). Qed.

(** The rest of a method after its per-identifier calls makes none. *)
Lemma rest_makes_no_forward_call c self ids w1 :
  In c [InstallLabExtensionApp; LinkLabExtensionApp] ->
  all_calls (fun k => negb (is_forward c k))
    (log ((if should_build self
           then try_except_Exception
                  (build cmds (app_dir self) (should_clean self))
                  (fun e =>
                     rollback_calls cmds c (app_dir self) ids ;;; raise e)
           else ret tt) w1)) = true.
Proof.
  intros [<-|[<-|[]]]; unfold rollback_calls; every_call; reflexivity.
Qed.

(** X16. For [install], [link], [unlink] and [uninstall], the run with
    [--no-build] is the beginning of the run without it: the same calls
    with the same outcomes, and what the run without the flag adds after
    them contains no per-identifier call. *)
Theorem no_build_only_drops_the_end
    (c : subapp) (self : BaseExtensionApp) (w : W) :
  In c [InstallLabExtensionApp; LinkLabExtensionApp;
        UnlinkLabExtensionApp; UninstallLabExtensionApp] ->
  exists tail,
    log (start cmds c self w) =
      log (start cmds c (apply_flag "no-build" self) w) ++ tail
    /\ all_calls (fun k => negb (is_forward c k)) tail = true.
Proof.
  intros Hc. destruct self as [args dir sb cl].
  change (apply_flag "no-build"
            {| extra_args := args; app_dir := dir;
               should_build := sb; should_clean := cl |})
    with {| extra_args := args; app_dir := dir;
            should_build := false; should_clean := cl |}.
  pose proof (or_cwd_run cmds args w) as Hor.
  destruct (res (or_cwd cmds args w)) as [ids|e0].
  2: { exists []. split; [|reflexivity].
       destruct Hc as [<-|[<-|[<-|[<-|[]]]]]; simpl start;
         unfold InstallLabExtensionApp_start, LinkLabExtensionApp_start,
           UnlinkLabExtensionApp_start, UninstallLabExtensionApp_start;
         cbn [extra_args app_dir should_build should_clean];
         do 2 rewrite bind_raise with (1 := Hor); reflexivity. }
  destruct Hc as [<-|[<-|[<-|[<-|[]]]]]; simpl start;
    unfold InstallLabExtensionApp_start, LinkLabExtensionApp_start,
      UnlinkLabExtensionApp_start, UninstallLabExtensionApp_start;
    cbn [extra_args app_dir should_build should_clean];
    do 2 rewrite bind_ok with (1 := Hor); rewrite !after_nil;
    rewrite ?bind_assoc.
  - destruct (list_comp (fun arg => install_extension cmds arg dir) ids w)
      as [[vs|e1] w1 t1] eqn:Hlc.
    + do 2 rewrite bind_ok with (1 := Hlc).
      exists (log ((if sb
                    then try_except_Exception (build cmds dir cl)
                           (fun e =>
                              rollback_calls cmds InstallLabExtensionApp
                                dir ids ;;; raise e)
                    else ret tt) w1)).
      split; [unfold after; simpl; now rewrite app_nil_r|].
      apply (@rest_makes_no_forward_call InstallLabExtensionApp
               {| extra_args := args; app_dir := dir;
                  should_build := sb; should_clean := cl |} ids w1).
      now left.
    + do 2 rewrite bind_raise with (1 := Hlc).
      exists []. split; [now rewrite app_nil_r | reflexivity].
  - destruct (list_comp (fun arg => link_package cmds arg dir) ids w)
      as [[vs|e1] w1 t1] eqn:Hlc.
    + do 2 rewrite bind_ok with (1 := Hlc).
      exists (log ((if sb
                    then try_except_Exception (build cmds dir cl)
                           (fun e =>
                              rollback_calls cmds LinkLabExtensionApp
                                dir ids ;;; raise e)
                    else ret tt) w1)).
      split; [unfold after; simpl; now rewrite app_nil_r|].
      apply (@rest_makes_no_forward_call LinkLabExtensionApp
               {| extra_args := args; app_dir := dir;
                  should_build := sb; should_clean := cl |} ids w1).
      right. now left.
    + do 2 rewrite bind_raise with (1 := Hlc).
      exists []. split; [now rewrite app_nil_r | reflexivity].
  - destruct (list_comp (fun arg => unlink_package cmds arg dir) ids w)
      as [[vs|e1] w1 t1] eqn:Hlc.
    + do 2 rewrite bind_ok with (1 := Hlc).
      exists (log ((if any vs && sb then build cmds dir cl else ret tt) w1)).
      split.
      * rewrite !bind_ret, andb_false_r. unfold after. simpl.
        now rewrite app_nil_r.
      * every_call; reflexivity.
    + do 2 rewrite bind_raise with (1 := Hlc).
      exists []. split; [now rewrite app_nil_r | reflexivity].
  - destruct (list_comp (fun arg => uninstall_extension cmds arg dir) ids w)
      as [[vs|e1] w1 t1] eqn:Hlc.
    + do 2 rewrite bind_ok with (1 := Hlc).
      exists (log ((if any vs && sb then build cmds dir cl else ret tt) w1)).
      split.
      * rewrite !bind_ret, andb_false_r. unfold after. simpl.
        now rewrite app_nil_r.
      * every_call; reflexivity.
    + do 2 rewrite bind_raise with (1 := Hlc).
      exists []. split; [now rewrite app_nil_r | reflexivity].
Qed.

End Deferring.

(** ** The further properties at concrete runs *)

(** [install extA extB], everything works. *)
Lemma build_success_keeps_everything_witness :
  let self := new_app InstallLabExtensionApp ["extA"; "extB"] in
  let r := start Toy.cmds InstallLabExtensionApp self Toy.empty in
  res r = Ok tt
  /\ calls (log r) =
       [ Call_install_extension "extA" ""; Call_install_extension "extB" "";
         Call_build "" false ]
  /\ Toy.installed (final r) = ["extB"; "extA"].
Proof.
  intros self r.
  destruct (@build_success_keeps_everything Toy.lab Toy.cmds
              InstallLabExtensionApp self Toy.empty ["extA"; "extB"]
              _ _ _ _ (or_introl eq_refl) eq_refl eq_refl eq_refl eq_refl)
    as (Hrun & Hcalls & _).
  subst r. rewrite Hrun.
  split; [reflexivity | split; [exact Hcalls | reflexivity]].
Defined.

(** [install extA extB extC] where [extB] is refused: [extA] stays
    installed, [extC] is not tried. *)
Lemma failed_install_is_not_rolled_back_witness :
  let self := new_app InstallLabExtensionApp ["extA"; "extB"; "extC"] in
  let r := start Toy.cmds_checked InstallLabExtensionApp self
                 Toy.one_refused in
  res r = Raise (Exception "ValueError" "extB")
  /\ calls (log r) =
       [ Call_install_extension "extA" ""; Call_install_extension "extB" "" ]
  /\ Toy.installed (final r) = ["extA"].
Proof.
  intros self r.
  destruct (@failed_install_is_not_rolled_back Toy.lab Toy.cmds_checked
              InstallLabExtensionApp self Toy.one_refused
              ["extA"] "extB" ["extC"] _ _ _ _ _
              (or_introl eq_refl) eq_refl eq_refl eq_refl)
    as (Hrun & Hcalls & _).
  subst r. rewrite Hrun.
  split; [reflexivity | split; [exact Hcalls | reflexivity]].
Defined.

(** [install extA], interrupted during [build]: [extA] stays installed. *)
Lemma interrupt_during_build_skips_rollback_witness :
  let self := new_app InstallLabExtensionApp ["extA"] in
  let r := start Toy.cmds InstallLabExtensionApp self
                 Toy.interrupted_build in
  res r = Raise KeyboardInterrupt
  /\ calls (log r) = [ Call_install_extension "extA" ""; Call_build "" false ]
  /\ Toy.installed (final r) = ["extA"].
Proof.
  intros self r.
  destruct (@interrupt_during_build_skips_rollback Toy.lab Toy.cmds
              InstallLabExtensionApp self Toy.interrupted_build ["extA"]
              _ _ _ _ _ (or_introl eq_refl) eq_refl eq_refl eq_refl eq_refl
              eq_refl) as (Hrun & Hcalls).
  subst r. rewrite Hrun.
  split; [reflexivity | split; [exact Hcalls | reflexivity]].
Defined.

(** [install extA] with a failing [build]: a rollback call is made. *)
Lemma rollback_only_after_failed_build_witness :
  let self := new_app InstallLabExtensionApp ["extA"] in
  should_build self = true
  /\ exists e,
       In (Ev (Call_build "" false) (Raised e))
          (log (start Toy.cmds InstallLabExtensionApp self
                      Toy.failing_build))
       /\ isinstance_Exception e = true.
Proof.
  intros self.
  apply (@rollback_only_after_failed_build Toy.lab Toy.cmds
           InstallLabExtensionApp self Toy.failing_build);
    [left; reflexivity | reflexivity].
Defined.

(** [unlink pkgA pkgB pkgC] where the call on [pkgB] raises. *)
Lemma identifiers_in_argument_order_witness :
  let self := new_app UnlinkLabExtensionApp ["pkgA"; "pkgB"; "pkgC"] in
  exists n tail,
    n <= 3
    /\ calls (log (start Toy.cmds UnlinkLabExtensionApp self
                         Toy.one_linked_one_stuck)) =
         map (fun x => Call_unlink_package x "")
             (firstn n ["pkgA"; "pkgB"; "pkgC"]) ++ tail
    /\ forallb (fun k => negb (is_forward UnlinkLabExtensionApp k)) tail
       = true
    /\ (tail <> [] -> n = 3).
Proof.
  intros self.
  apply (@identifiers_in_argument_order Toy.lab Toy.cmds
           UnlinkLabExtensionApp self Toy.one_linked_one_stuck
           ["pkgA"; "pkgB"; "pkgC"]);
    [discriminate | reflexivity].
Defined.

(** [enable a b]. *)
Lemma enable_disable_call_every_identifier_witness :
  let self := new_app EnableLabExtensionsApp ["a"; "b"] in
  let r := start Toy.cmds EnableLabExtensionsApp self Toy.empty in
  res r = Ok tt
  /\ calls (log r) =
       [ Call_enable_extension "a" ""; Call_enable_extension "b" "" ].
Proof.
  intros self r.
  apply (@enable_disable_call_every_identifier Toy.lab Toy.cmds
           EnableLabExtensionsApp self Toy.empty);
    [left; reflexivity | reflexivity].
Defined.


(** [install] with no identifier from a directory that is gone. *)
Lemma missing_cwd_stops_before_any_call_witness :
  start Toy.cmds InstallLabExtensionApp (new_app InstallLabExtensionApp [])
        Toy.no_cwd
  = Run (Raise (Exception "FileNotFoundError" "getcwd")) Toy.no_cwd [].
Proof.
  apply (@missing_cwd_stops_before_any_call Toy.lab Toy.cmds
           InstallLabExtensionApp (new_app InstallLabExtensionApp [])
           Toy.no_cwd);
    [left; reflexivity | reflexivity | reflexivity].
Defined.

(** [install extA] from a directory that is gone. *)
Lemma cwd_is_consulted_only_without_identifiers_witness :
  start (with_getcwd (fun _ => Ok "/elsewhere") Toy.cmds)
        InstallLabExtensionApp
        (new_app InstallLabExtensionApp ["extA"]) Toy.no_cwd
  = start Toy.cmds InstallLabExtensionApp
          (new_app InstallLabExtensionApp ["extA"]) Toy.no_cwd.
Proof.
  apply (@cwd_is_consulted_only_without_identifiers Toy.lab Toy.cmds
           InstallLabExtensionApp (new_app InstallLabExtensionApp ["extA"])
           Toy.no_cwd (fun _ => Ok "/elsewhere")).
  discriminate.
Defined.

(** [enable --no-build a]. *)
Lemma flags_do_not_change_list_enable_disable_witness :
  start Toy.cmds EnableLabExtensionsApp
        (apply_flag "no-build" (new_app EnableLabExtensionsApp ["a"]))
        Toy.empty
  = start Toy.cmds EnableLabExtensionsApp
          (new_app EnableLabExtensionsApp ["a"]) Toy.empty.
Proof.
  apply (@flags_do_not_change_list_enable_disable Toy.lab Toy.cmds
           EnableLabExtensionsApp (new_app EnableLabExtensionsApp ["a"])
           Toy.empty "no-build");
    [right; left; reflexivity | left; reflexivity].
Defined.

(** The table listed backwards. *)
Lemma sorted_names_ignore_table_order_witness :
  sorted (keys (rev subcommands)) = sorted (keys subcommands)
  /\ StronglySorted string_le (sorted (keys (rev subcommands)))
  /\ Permutation (keys subcommands) (sorted (keys (rev subcommands))).
Proof.
  apply (@sorted_names_ignore_table_order (rev subcommands)).
  apply Permutation_sym, Permutation_rev.
Defined.

(** [install extA] and [install --no-build extA] where [build] fails. *)
Lemma no_build_only_drops_the_end_witness :
  let self := new_app InstallLabExtensionApp ["extA"] in
  exists tail,
    log (start Toy.cmds InstallLabExtensionApp self Toy.failing_build) =
      log (start Toy.cmds InstallLabExtensionApp
                 (apply_flag "no-build" self) Toy.failing_build) ++ tail
    /\ all_calls (fun k => negb (is_forward InstallLabExtensionApp k)) tail
       = true.
Proof.
  intros self.
  apply (@no_build_only_drops_the_end Toy.lab Toy.cmds
           InstallLabExtensionApp self Toy.failing_build).
  left. reflexivity.
Defined.
